(** * Quiz session controller (src/App.tsx): a shallow embedding

    The React component [App] keeps its whole session in [useState] cells and
    changes it only through the setters of those cells, called from event
    handlers.  A handler is a closure created by one render: the state
    variables it reads ([studyMaterial], [file], [startPage], ...) are the
    values of that render and do not change while the handler runs, whatever
    setters it calls.  The embedding keeps that distinction: every handler
    takes the render it was created in ([r : Session]) and is a computation
    over the current session, which only setters modify.

    Calls that leave the component (file reads, pdf.js, mammoth, the question
    generator, timers, the console) are recorded in a log next to the session,
    so that "no I/O happened" is a statement about the log.

    An [async] handler stops at each [await] and is resumed by the event loop
    when the awaited promise has settled; between the two, other handlers
    and timers may run.  [run] resumes a handler at once, with nothing in
    between; [step] and [runEvents] interleave.

    Numbers that hold page numbers, counts and indices are integers here.
    The translation function [t] and the [language] come from the
    localization hook, which is outside this file: they are taken from the
    environment of the render. *)

From Stdlib Require Import ZArith Lia Ascii String List.
From stdpp Require Import gmap strings list pretty.
From Equations Require Import Equations.

Local Open Scope string_scope.
Local Open Scope Z_scope.

(** ** JavaScript strings *)

Module Js.

(** The line feed written ['\n'] in the source. *)
Definition LF : string := String (ascii_of_nat 10) EmptyString.

(** [s.startsWith(p)] *)
Definition startsWith (s p : string) : bool := String.prefix p s.

(** [s.endsWith(p)] *)
Definition endsWith (s p : string) : bool :=
  let n := String.length s in
  let m := String.length p in
  if (m <=? n)%nat then String.eqb (substring (n - m) m s) p else false.

(** [l.join(sep)] on an array of strings. *)
Definition join (sep : string) (l : list string) : string :=
  String.concat sep l.

(** [s.split(c)] for a one-character separator: the pieces between the
    separators, in order; a string without separator gives one piece. *)
Fixpoint split (c : ascii) (s : string) : list string :=
  match s with
  | EmptyString => [EmptyString]
  | String a s' =>
      if Ascii.eqb a c then EmptyString :: split c s'
      else match split c s' with
           | piece :: rest => String a piece :: rest
           | [] => [String a EmptyString]
           end
  end.

(** [String(b)] on a boolean. *)
Definition String_of_bool (b : bool) : string :=
  if b then "true" else "false".

(** A value of static type [string] that may be [undefined] at run time is
    an [option string]; [None] is [undefined].  Strict equality [===]. *)
Definition strict_eq (a b : option string) : bool :=
  match a, b with
  | Some x, Some y => String.eqb x y
  | None, None => true
  | _, _ => false
  end.

(** A value interpolated in a template literal. *)
Definition interpolate (a : option string) : string :=
  match a with
  | Some x => x
  | None => "undefined"
  end.

End Js.

(** ** src/types.ts *)

Inductive AppStage :=
| WELCOME
| UPLOAD
| PROCESSING
| SELECT_PAGE_RANGE
| SELECT_TYPE
| SELECT_COUNT
| GENERATING
| ANSWERING
| COMPLETED.

Inductive QuestionType :=
| MultipleChoice
| TrueFalse.

(** A question is an object parsed from the generator's JSON.  The component
    tells the two kinds apart by the presence of a field (['options' in q],
    ['answer' in q]), so the embedding keeps every field optional: [None] is
    an absent field.  A [MultipleChoiceQuestion] has [options] and
    [correctAnswer], a [TrueFalseQuestion] has [answer]. *)
Record Question := mkQuestion {
  question : string;
  options : option (list string);
  correctAnswer : option string;
  answer : option bool
}.

Definition MultipleChoiceQuestion (q : string) (opts : list string)
    (correct : string) : Question :=
  mkQuestion q (Some opts) (Some correct) None.

Definition TrueFalseQuestion (q : string) (a : bool) : Question :=
  mkQuestion q None None (Some a).

(** [ImagePart.inlineData]; [data] is [undefined] when the data URL read from
    the file has no comma (see [fileToBase64]). *)
Record ImagePart := mkImagePart {
  data : option string;
  mimeType : string
}.

(** [type StudyMaterial = string | ImagePart] *)
Inductive StudyMaterial :=
| Text (text : string)
| Image (inlineData : ImagePart).

(** ** Shapes of the browser and library objects the component touches *)

Record File := mkFile {
  file_name : string;
  file_type : string;
  file_bytes : list Byte.byte
}.

Definition JsError := string.

(** A promise that has settled. *)
Inductive Promise (A : Type) :=
| Resolved (a : A)
| Rejected (e : JsError).
Arguments Resolved {A} a.
Arguments Rejected {A} e.

Definition ArrayBuffer := list Byte.byte.

Record TextItem := mkTextItem { str : string }.

Record PdfPage := mkPdfPage {
  getTextContent : Promise (list TextItem)
}.

Record PdfDocument := mkPdfDocument {
  numPages : Z;
  getPage : Z -> Promise PdfPage
}.

(** What a render of [App] obtains from outside the file: the localization
    hook ([t], [language]), the file API, the libraries injected in [window]
    and the generator service. *)
Record Env := mkEnv {
  t : string -> string;
  language : string;
  readAsDataURL : File -> Promise string;
  arrayBuffer : File -> Promise ArrayBuffer;
  fileText : File -> Promise string;
  getDocument : ArrayBuffer -> Promise PdfDocument;
  extractRawText : ArrayBuffer -> Promise string;
  generateQuestions :
    StudyMaterial -> QuestionType -> Z -> string -> Promise (list Question)
}.

(** ** The session: the [useState] cells of [App]

    The cells of type [number] hold whole numbers here.  The page inputs
    store [Number(e.target.value)] as it comes, so a bound typed with a
    fraction is a value of the program that [Z] does not have: what is
    proved of page ranges is proved of whole-number bounds. *)

Record Session := mkSession {
  stage : AppStage;
  studyMaterial : option StudyMaterial;
  questionType : option QuestionType;
  questionCount : Z;
  questions : list Question;
  currentQuestionIndex : nat;
  userAnswers : gmap nat string;
  feedback : gmap nat string;
  error : option string;
  isParsing : bool;
  isDragOver : bool;
  fileName : string;
  file : option File;
  totalPages : Z;
  startPage : Z;
  endPage : Z
}.

(** The initial values given to [useState]. *)
Definition initialSession : Session :=
  {| stage := WELCOME; studyMaterial := None; questionType := None;
     questionCount := 5; questions := []; currentQuestionIndex := 0%nat;
     userAnswers := ∅; feedback := ∅; error := None;
     isParsing := false; isDragOver := false; fileName := EmptyString;
     file := None; totalPages := 0; startPage := 1; endPage := 1 |}.

(** Writing one cell. *)
Definition with_stage (v : AppStage) (s : Session) : Session :=
  mkSession v (studyMaterial s) (questionType s) (questionCount s)
    (questions s) (currentQuestionIndex s) (userAnswers s) (feedback s)
    (error s) (isParsing s) (isDragOver s) (fileName s) (file s)
    (totalPages s) (startPage s) (endPage s).
Definition with_studyMaterial (v : option StudyMaterial) (s : Session) : Session :=
  mkSession (stage s) v (questionType s) (questionCount s)
    (questions s) (currentQuestionIndex s) (userAnswers s) (feedback s)
    (error s) (isParsing s) (isDragOver s) (fileName s) (file s)
    (totalPages s) (startPage s) (endPage s).
Definition with_questionType (v : option QuestionType) (s : Session) : Session :=
  mkSession (stage s) (studyMaterial s) v (questionCount s)
    (questions s) (currentQuestionIndex s) (userAnswers s) (feedback s)
    (error s) (isParsing s) (isDragOver s) (fileName s) (file s)
    (totalPages s) (startPage s) (endPage s).
Definition with_questionCount (v : Z) (s : Session) : Session :=
  mkSession (stage s) (studyMaterial s) (questionType s) v
    (questions s) (currentQuestionIndex s) (userAnswers s) (feedback s)
    (error s) (isParsing s) (isDragOver s) (fileName s) (file s)
    (totalPages s) (startPage s) (endPage s).
Definition with_questions (v : list Question) (s : Session) : Session :=
  mkSession (stage s) (studyMaterial s) (questionType s)
    (questionCount s) v (currentQuestionIndex s) (userAnswers s)
    (feedback s) (error s) (isParsing s) (isDragOver s) (fileName s)
    (file s) (totalPages s) (startPage s) (endPage s).
Definition with_currentQuestionIndex (v : nat) (s : Session) : Session :=
  mkSession (stage s) (studyMaterial s) (questionType s)
    (questionCount s) (questions s) v (userAnswers s)
    (feedback s) (error s) (isParsing s) (isDragOver s) (fileName s)
    (file s) (totalPages s) (startPage s) (endPage s).
Definition with_userAnswers (v : gmap nat string) (s : Session) : Session :=
  mkSession (stage s) (studyMaterial s) (questionType s)
    (questionCount s) (questions s) (currentQuestionIndex s) v
    (feedback s) (error s) (isParsing s) (isDragOver s) (fileName s)
    (file s) (totalPages s) (startPage s) (endPage s).
Definition with_feedback (v : gmap nat string) (s : Session) : Session :=
  mkSession (stage s) (studyMaterial s) (questionType s)
    (questionCount s) (questions s) (currentQuestionIndex s)
    (userAnswers s) v (error s) (isParsing s) (isDragOver s)
    (fileName s) (file s) (totalPages s) (startPage s) (endPage s).
Definition with_error (v : option string) (s : Session) : Session :=
  mkSession (stage s) (studyMaterial s) (questionType s)
    (questionCount s) (questions s) (currentQuestionIndex s)
    (userAnswers s) (feedback s) v (isParsing s) (isDragOver s)
    (fileName s) (file s) (totalPages s) (startPage s) (endPage s).
Definition with_isParsing (v : bool) (s : Session) : Session :=
  mkSession (stage s) (studyMaterial s) (questionType s)
    (questionCount s) (questions s) (currentQuestionIndex s)
    (userAnswers s) (feedback s) (error s) v (isDragOver s)
    (fileName s) (file s) (totalPages s) (startPage s) (endPage s).
Definition with_isDragOver (v : bool) (s : Session) : Session :=
  mkSession (stage s) (studyMaterial s) (questionType s)
    (questionCount s) (questions s) (currentQuestionIndex s)
    (userAnswers s) (feedback s) (error s) (isParsing s) v
    (fileName s) (file s) (totalPages s) (startPage s) (endPage s).
Definition with_fileName (v : string) (s : Session) : Session :=
  mkSession (stage s) (studyMaterial s) (questionType s)
    (questionCount s) (questions s) (currentQuestionIndex s)
    (userAnswers s) (feedback s) (error s) (isParsing s)
    (isDragOver s) v (file s) (totalPages s) (startPage s) (endPage s).
Definition with_file (v : option File) (s : Session) : Session :=
  mkSession (stage s) (studyMaterial s) (questionType s)
    (questionCount s) (questions s) (currentQuestionIndex s)
    (userAnswers s) (feedback s) (error s) (isParsing s)
    (isDragOver s) (fileName s) v (totalPages s) (startPage s)
    (endPage s).
Definition with_totalPages (v : Z) (s : Session) : Session :=
  mkSession (stage s) (studyMaterial s) (questionType s)
    (questionCount s) (questions s) (currentQuestionIndex s)
    (userAnswers s) (feedback s) (error s) (isParsing s)
    (isDragOver s) (fileName s) (file s) v (startPage s)
    (endPage s).
Definition with_startPage (v : Z) (s : Session) : Session :=
  mkSession (stage s) (studyMaterial s) (questionType s)
    (questionCount s) (questions s) (currentQuestionIndex s)
    (userAnswers s) (feedback s) (error s) (isParsing s)
    (isDragOver s) (fileName s) (file s) (totalPages s) v
    (endPage s).
Definition with_endPage (v : Z) (s : Session) : Session :=
  mkSession (stage s) (studyMaterial s) (questionType s)
    (questionCount s) (questions s) (currentQuestionIndex s)
    (userAnswers s) (feedback s) (error s) (isParsing s)
    (isDragOver s) (fileName s) (file s) (totalPages s)
    (startPage s) v.


(** ** Effects

    A handler changes the session through setters, calls out of the component
    (logged in [io]), registers timers, may throw, and, when it is an [async]
    function, gives control back to the event loop at every [await]: other
    handlers may run before it is resumed, and it then continues on the
    session as they left it. *)

Inductive IoEvent :=
| IoReadAsDataURL (f : File)
| IoArrayBuffer (f : File)
| IoText (f : File)
| IoGetDocument (buf : ArrayBuffer)
| IoGetPage (i : Z)
| IoGetTextContent
| IoExtractRawText (buf : ArrayBuffer)
| IoGenerateQuestions (m : StudyMaterial) (ty : QuestionType) (count : Z)
    (lang : string)
| IoConsoleError (msg : string).

(** A callback given to [setTimeout]; the callbacks of [App] only call
    setters, so one is a function on sessions. *)
Record Timer := mkTimer {
  callback : Session -> Session;
  delay : Z
}.

Record World := mkWorld {
  session : Session;
  io : list IoEvent;
  timers : list Timer
}.

Inductive Outcome (A : Type) :=
| Ok (a : A)
| Thrown (e : JsError).
Arguments Ok {A} a.
Arguments Thrown {A} e.

(** A computation runs until it finishes or reaches an [await]; suspended, it
    hands back the world as it is and the rest of itself, to be resumed on
    the world of that later time. *)
Inductive Step (A : Type) :=
| Finished (o : Outcome A) (w : World)
| Suspended (w : World) (k : World -> Step A).
Arguments Finished {A} o w.
Arguments Suspended {A} w k.

Definition M (A : Type) := World -> Step A.

Fixpoint bind_step {A B} (s : Step A) (f : A -> M B) : Step B :=
  match s with
  | Finished (Ok a) w => f a w
  | Finished (Thrown e) w => Finished (Thrown e) w
  | Suspended w k => Suspended w (fun w' => bind_step (k w') f)
  end.

(** [try { body } catch (err) { handler }] *)
Fixpoint catch_step {A} (s : Step A) (h : JsError -> M A) : Step A :=
  match s with
  | Finished (Ok a) w => Finished (Ok a) w
  | Finished (Thrown e) w => h e w
  | Suspended w k => Suspended w (fun w' => catch_step (k w') h)
  end.

#[global] Instance M_ret : MRet M := fun A a w => Finished (Ok a) w.
#[global] Instance M_bind : MBind M := fun A B f m w => bind_step (m w) f.

Definition throw {A} (e : JsError) : M A := fun w => Finished (Thrown e) w.

Definition try_catch {A} (body : M A) (h : JsError -> M A) : M A :=
  fun w => catch_step (body w) h.

(** A state setter called with a function of the previous value; a setter
    called with a value is the constant case. *)
Definition update (f : Session -> Session) : M unit :=
  fun w => Finished (Ok tt) (mkWorld (f (session w)) (io w) (timers w)).

Definition log (ev : IoEvent) : M unit :=
  fun w => Finished (Ok tt) (mkWorld (session w) (io w ++ [ev]) (timers w)).

Definition setTimeout (cb : Session -> Session) (ms : Z) : M unit :=
  fun w =>
    Finished (Ok tt) (mkWorld (session w) (io w) (timers w ++ [mkTimer cb ms])).

(** [await p]: suspend; when resumed, the value of [p], or its rejection
    thrown. *)
Definition await {A} (p : Promise A) : M A :=
  fun w =>
    Suspended w (fun w' =>
      match p with
      | Resolved a => Finished (Ok a) w'
      | Rejected e => Finished (Thrown e) w'
      end).

(** Running a computation with nothing else happening at its [await]s. *)
Fixpoint run {A} (s : Step A) : Outcome A * World :=
  match s with
  | Finished o w => (o, w)
  | Suspended w k => run (k w)
  end.

(** The state setters of [App]. *)
Definition setStage v := update (with_stage v).
Definition setStudyMaterial v := update (with_studyMaterial v).
Definition setQuestionType v := update (with_questionType v).
Definition setQuestionCount v := update (with_questionCount v).
Definition setQuestions v := update (with_questions v).
Definition setCurrentQuestionIndex v := update (with_currentQuestionIndex v).
Definition setUserAnswers (f : gmap nat string -> gmap nat string) :=
  update (fun s => with_userAnswers (f (userAnswers s)) s).
Definition setFeedback (f : gmap nat string -> gmap nat string) :=
  update (fun s => with_feedback (f (feedback s)) s).
Definition setError v := update (with_error v).
Definition setIsParsing v := update (with_isParsing v).
Definition setIsDragOver v := update (with_isDragOver v).
Definition setFileName v := update (with_fileName v).
Definition setFile v := update (with_file v).
Definition setTotalPages v := update (with_totalPages v).
Definition setStartPage v := update (with_startPage v).
Definition setEndPage v := update (with_endPage v).

(** JavaScript truthiness of the values the handlers negate with [!]. *)
Definition truthy_material (m : option StudyMaterial) : bool :=
  match m with
  | None => false
  | Some (Text s) => negb (String.eqb s EmptyString)
  | Some (Image _) => true
  end.

Definition truthy {A} (o : option A) : bool :=
  match o with
  | None => false
  | Some _ => true
  end.

(** ** src/App.tsx *)

(** [fileToBase64]: the part of the data URL after its first comma. *)
Definition fileToBase64 (env : Env) (f : File) : M (option string) :=
  log (IoReadAsDataURL f);;
  result ← await (readAsDataURL env f);
  mret (Js.split "," result !! 1%nat).

Definition handleAnalyze (env : Env) (r : Session) : M unit :=
  if negb (truthy_material (studyMaterial r)) then
    setError (Some (t env "error_no_text"))
  else
    setError None;;
    setStage PROCESSING;;
    (* Simulate processing time *)
    setTimeout (with_stage SELECT_TYPE) 1500.

Definition processFile (env : Env) (r : Session) (f : File) : M unit :=
  setIsParsing true;;
  setFileName (file_name f);;
  setError None;;
  setStudyMaterial None;;
  setFile (Some f);;
  try_catch
    (if Js.startsWith (file_type f) "image/" then
       base64Data ← fileToBase64 env f;
       setStudyMaterial
         (Some (Image {| data := base64Data; mimeType := file_type f |}));;
       setIsParsing false;;
       handleAnalyze env r
     else if String.eqb (file_type f) "application/pdf" then
       log (IoArrayBuffer f);;
       buf ← await (arrayBuffer env f);
       log (IoGetDocument buf);;
       pdf ← await (getDocument env buf);
       setTotalPages (numPages pdf);;
       setStartPage 1;;
       setEndPage (numPages pdf);;
       setStage SELECT_PAGE_RANGE;;
       setIsParsing false
     else
       text ← (if Js.endsWith (file_name f) ".docx" then
                 log (IoArrayBuffer f);;
                 buf ← await (arrayBuffer env f);
                 log (IoExtractRawText buf);;
                 await (extractRawText env buf)
               else if String.eqb (file_type f) "text/plain" then
                 log (IoText f);;
                 await (fileText env f)
               else
                 throw "Unsupported file type.");
       setStudyMaterial (Some (Text text));;
       setIsParsing false;;
       handleAnalyze env r)
    (fun err =>
       log (IoConsoleError "File processing error:");;
       setError (Some (t env "error_parsing_failed"));;
       setFileName EmptyString;;
       setFile None;;
       setIsParsing false;;
       setStage UPLOAD).

Definition handleFileChange (env : Env) (r : Session) (files : list File)
    : M unit :=
  match files !! 0%nat with
  | Some f => processFile env r f
  | None => mret tt
  end.

Definition handleDrop (env : Env) (r : Session) (files : list File)
    : M unit :=
  setIsDragOver false;;
  match files !! 0%nat with
  | Some f => processFile env r f
  | None => mret tt
  end.

(** The loop of [handleConfirmPageRange]:
    [for (let i = startPage; i <= endPage; i++) { ... }], with [i] the loop
    variable and [extractedText] the accumulator; it ends with the
    accumulated text when [i] passes [endPage]. *)
Equations extractLoop (pdf : PdfDocument) (i endPage : Z)
    (extractedText : string) : M string
    by wf (Z.to_nat (endPage + 1 - i)) lt :=
  extractLoop pdf i endPage extractedText with Z_le_dec i endPage := {
    | left _ =>
        log (IoGetPage i);;
        page ← await (getPage pdf i);
        log IoGetTextContent;;
        textContent ← await (getTextContent page);
        let pageText := Js.join " " (map str textContent) in
        extractLoop pdf (i + 1) endPage
          (extractedText +:+ pageText +:+ Js.LF +:+ Js.LF)
    | right _ => mret extractedText }.
Next Obligation. lia. Qed.

Definition handleConfirmPageRange (env : Env) (r : Session) : M unit :=
  match file r with
  | Some f =>
      if (startPage r >? endPage r)%Z || (startPage r <? 1)%Z
         || (endPage r >? totalPages r)%Z
      then setError (Some (t env "error_invalid_page_range"))
      else
        setError None;;
        setStage PROCESSING;;
        try_catch
          (log (IoArrayBuffer f);;
           buf ← await (arrayBuffer env f);
           log (IoGetDocument buf);;
           pdf ← await (getDocument env buf);
           extractedText ← extractLoop pdf (startPage r) (endPage r) EmptyString;
           setStudyMaterial (Some (Text extractedText));;
           setStage SELECT_TYPE)
          (fun err =>
             log (IoConsoleError "Error extracting text from page range:");;
             setError (Some (t env "error_parsing_failed"));;
             setStage UPLOAD)
  | None => setError (Some (t env "error_invalid_page_range"))
  end.

Definition handleSelectType (ty : QuestionType) : M unit :=
  setQuestionType (Some ty);;
  setStage SELECT_COUNT.

Definition handleGenerateQuestions (env : Env) (r : Session) : M unit :=
  match questionType r, studyMaterial r with
  | Some ty, Some material =>
      (* [!studyMaterial] also holds of the empty text *)
      if negb (truthy_material (Some material)) then mret tt
      else
        setStage GENERATING;;
        setError None;;
        try_catch
          (log (IoGenerateQuestions material ty (questionCount r)
                  (language env));;
           generated ← await (generateQuestions env material ty
                                (questionCount r) (language env));
           if (length generated =? 0)%nat then
             throw "AI returned no questions."
           else
             setQuestions generated;;
             setCurrentQuestionIndex 0%nat;;
             setUserAnswers (fun _ => ∅);;
             setFeedback (fun _ => ∅);;
             setStage ANSWERING)
          (fun err =>
             setError (Some (t env "error_generation_failed"));;
             (* Go back to the previous stage *)
             setStage SELECT_COUNT)
  | _, _ => mret tt
  end.

Definition handleAnswerSelect (r : Session) (answer : string) : M unit :=
  setUserAnswers (fun prev => <[currentQuestionIndex r := answer]> prev).

Definition handleCheckAnswer (env : Env) (r : Session) : M unit :=
  match questions r !! currentQuestionIndex r with
  | None =>
      (* ['options' in undefined] *)
      throw "TypeError"
  | Some currentQuestion =>
      let userAnswer := userAnswers r !! currentQuestionIndex r in
      let '(isCorrect, correctAnswerText) :=
        if truthy (options currentQuestion) then (* Multiple Choice *)
          (Js.strict_eq userAnswer (correctAnswer currentQuestion),
           correctAnswer currentQuestion)
        else
          match answer currentQuestion with
          | Some a => (* True/False *)
              (Js.strict_eq userAnswer (Some (Js.String_of_bool a)),
               Some (if a then t env "true" else t env "false"))
          | None => (false, Some EmptyString)
          end in
      if isCorrect then
        setFeedback (fun prev =>
          <[currentQuestionIndex r := t env "correct_feedback"]> prev)
      else
        setFeedback (fun prev =>
          <[currentQuestionIndex r :=
              t env "incorrect_feedback" +:+ " "
              +:+ Js.interpolate correctAnswerText]> prev)
  end.

Definition handleNextQuestion (r : Session) : M unit :=
  if (Z.of_nat (currentQuestionIndex r)
        <? Z.of_nat (length (questions r)) - 1)%Z
  then setCurrentQuestionIndex (currentQuestionIndex r + 1)%nat
  else setStage COMPLETED.

Definition handleGenerateMore : M unit :=
  (* Reset only quiz-related state *)
  setQuestions [];;
  setCurrentQuestionIndex 0%nat;;
  setUserAnswers (fun _ => ∅);;
  setFeedback (fun _ => ∅);;
  setError None;;
  setQuestionType None;;
  setQuestionCount 5;;
  (* Go back to the question type selection, preserving the study material *)
  setStage SELECT_TYPE.

Definition handleReturnToStart : M unit :=
  setQuestions [];;
  setCurrentQuestionIndex 0%nat;;
  setUserAnswers (fun _ => ∅);;
  setFeedback (fun _ => ∅);;
  setError None;;
  setQuestionType None;;
  setQuestionCount 5;;
  setStage UPLOAD.

Definition handleResetUpload : M unit :=
  setStudyMaterial None;;
  setFileName EmptyString;;
  setFile None;;
  setTotalPages 0;;
  setStartPage 1;;
  setEndPage 1;;
  setError None.

Definition handleBack (r : Session) : M unit :=
  setError None;;
  match stage r with
  | SELECT_PAGE_RANGE => handleResetUpload;; setStage UPLOAD
  | SELECT_TYPE => setStage UPLOAD
  | SELECT_COUNT => setStage SELECT_TYPE
  | ANSWERING =>
      setQuestions [];;
      setCurrentQuestionIndex 0%nat;;
      setUserAnswers (fun _ => ∅);;
      setFeedback (fun _ => ∅);;
      setStage SELECT_TYPE
  | _ => mret tt
  end.

(** Inline handlers of the markup: the upload button of the welcome screen
    and the text area of the upload screen. *)
Definition onWelcomeUpload : M unit := setStage UPLOAD.

Definition onTextareaChange (r : Session) (value : string) : M unit :=
  setStudyMaterial (Some (Text value));;
  if negb (String.eqb (fileName r) EmptyString) then
    setFileName EmptyString;;
    setFile None
  else mret tt.

(** The check button of [renderAnswering] is rendered only for a question
    that has [options] or a boolean [answer], and only before feedback. *)
Definition checkButtonRendered (r : Session) : bool :=
  match questions r !! currentQuestionIndex r with
  | Some q =>
      (truthy (options q) || truthy (answer q))
      && negb (truthy (feedback r !! currentQuestionIndex r))
  | None => false
  end.

(** ** The event loop

    One event is handled at a time: a handler of the current render is
    called, or the promise awaited by a suspended handler settles and the
    handler goes on, or a timer elapses.  A handler is called with the render
    of the session as it is then; once suspended it keeps that render. *)

Record Loop := mkLoop {
  world : World;
  suspended : list (World -> Step unit)
}.

Inductive Event :=
| Invoke (h : Session -> M unit)
| Resume (n : nat)
| Fire (n : nat).

(** A handler that throws is not caught by anyone: what it wrote stays. *)
Definition settle (rest : list (World -> Step unit)) (s : Step unit) : Loop :=
  match s with
  | Finished _ w => mkLoop w rest
  | Suspended w k => mkLoop w (rest ++ [k])
  end.

Definition fire (tm : Timer) (w : World) : World :=
  mkWorld (callback tm (session w)) (io w) (timers w).

Definition step (l : Loop) (e : Event) : Loop :=
  match e with
  | Invoke h => settle (suspended l) (h (session (world l)) (world l))
  | Resume n =>
      match suspended l !! n with
      | Some k => settle (delete n (suspended l)) (k (world l))
      | None => l
      end
  | Fire n =>
      match timers (world l) !! n with
      | Some tm =>
          let w := world l in
          mkLoop (fire tm (mkWorld (session w) (io w) (delete n (timers w))))
            (suspended l)
      | None => l
      end
  end.

Definition runEvents (l : Loop) (es : list Event) : Loop :=
  fold_left step es l.

Definition initialLoop : Loop :=
  mkLoop (mkWorld initialSession [] []) [].

(** The world in which a handler of render [r] is called. *)
Definition worldOf (r : Session) : World := mkWorld r [] [].

(** ** What the specification says of the extracted text

    The texts of the pages [startPage..endPage], each the fragments of the
    page joined by single spaces. *)
Definition pageTexts (items : Z -> list TextItem) (startPage endPage : Z)
    : list string :=
  map (fun i => Js.join " " (map str (items i)))
      (seqZ startPage (endPage + 1 - startPage)).

(** Successive pages separated by a blank line. *)
Definition separatedByBlankLines (texts : list string) : string :=
  Js.join (Js.LF +:+ Js.LF) texts.

(** Every page followed by a blank line. *)
Definition followedByBlankLines (texts : list string) : string :=
  String.concat EmptyString (map (fun p => p +:+ Js.LF +:+ Js.LF) texts).

(** ** Sample collaborators *)

Module Sample.

(** A document read from its pages, each a list of text fragments; pages
    are numbered from 1. *)
Definition pdfOfPages (pages : list (list string)) : PdfDocument :=
  {| numPages := Z.of_nat (length pages);
     getPage := fun i =>
       if (1 <=? i)%Z && (i <=? Z.of_nat (length pages))%Z then
         match pages !! Z.to_nat (i - 1) with
         | Some fragments =>
             Resolved (mkPdfPage (Resolved (map mkTextItem fragments)))
         | None => Rejected "Invalid page request"
         end
       else Rejected "Invalid page request" |}.

Definition tenPages : list (list string) :=
  [ ["Cells"]; ["Tissues"]; ["The"; "heart"; "pumps"];
    ["Blood"; "vessels"]; ["Lungs"]; ["Liver"]; ["Kidneys"]; ["Skin"];
    ["Bones"]; ["Nerves"] ].

Definition photo : File := mkFile "photo.png" "image/png" [].
Definition notes : File := mkFile "notes.pdf" "application/pdf" [].

Definition someQuestions : list Question :=
  [ TrueFalseQuestion "The heart pumps blood." true ].

(** The translation table is not part of the sources: a message is shown
    here by its key. *)
Definition env (generated : Promise (list Question)) : Env :=
  {| t := fun key => key;
     language := "en";
     readAsDataURL := fun f =>
       Resolved ("data:" +:+ file_type f +:+ ";base64,QUJD");
     arrayBuffer := fun f => Resolved (file_bytes f);
     fileText := fun f => Resolved "plain text";
     getDocument := fun _ => Resolved (pdfOfPages tenPages);
     extractRawText := fun _ => Resolved "word text";
     generateQuestions := fun _ _ _ _ => generated |}.

(** A session on the page-range screen after [notes] was loaded, the user
    having asked for pages 3 to 4. *)
Definition pages3to4 : Session :=
  with_endPage 4 (with_startPage 3 (with_totalPages 10
    (with_file (Some notes) (with_fileName "notes.pdf"
      (with_stage SELECT_PAGE_RANGE initialSession))))).

(** A fresh session on the upload screen. *)
Definition uploading : Session := with_stage UPLOAD initialSession.

(** A session ready to generate five true/false questions from a text. *)
Definition counting : Session :=
  with_questionType (Some TrueFalse)
    (with_studyMaterial (Some (Text "The heart pumps blood."))
      (with_stage SELECT_COUNT initialSession)).

(** A session answering one multiple-choice and one true/false question. *)
Definition answering : Session :=
  with_userAnswers {[ 0%nat := "Paris" ]}
    (with_questions
       [ MultipleChoiceQuestion "Capital of France?"
           ["Paris"; "Rome"; "Oslo"; "Bern"] "Paris";
         TrueFalseQuestion "The heart pumps blood." true ]
       (with_stage ANSWERING counting)).

(** A question object with neither [options] nor [answer]. *)
Definition bareQuestion : Question :=
  mkQuestion "What?" None None None.

Definition answeringBare : Session :=
  with_questions [bareQuestion] (with_stage ANSWERING counting).

End Sample.

(** ** Reading a document page by page *)

(** The calls the loop makes on pages [i..endPage]. *)
Definition extractIo (i endPage : Z) : list IoEvent :=
  concat (map (fun j => [IoGetPage j; IoGetTextContent])
              (seqZ i (endPage + 1 - i))).

(** [items] gives the text items of the pages [i..endPage] of [pdf], all of
    which can be read. *)
Definition readable (pdf : PdfDocument) (items : Z -> list TextItem)
    (i endPage : Z) : Prop :=
  forall j, i <= j <= endPage ->
    exists page, getPage pdf j = Resolved page
                 /\ getTextContent page = Resolved (items j).

(** ** Checking an answer

    The text [handleCheckAnswer] passes to [setFeedback], from the question
    and the recorded answer. *)
Definition feedbackText (env : Env) (q : Question)
    (userAnswer : option string) : string :=
  let '(isCorrect, correctAnswerText) :=
    if truthy (options q) then
      (Js.strict_eq userAnswer (correctAnswer q), correctAnswer q)
    else
      match answer q with
      | Some a =>
          (Js.strict_eq userAnswer (Some (Js.String_of_bool a)),
           Some (if a then t env "true" else t env "false"))
      | None => (false, Some EmptyString)
      end in
  if isCorrect then t env "correct_feedback"
  else t env "incorrect_feedback" +:+ " " +:+ Js.interpolate correctAnswerText.

(** The world after feedback [v] was written for question [i]. *)
Definition wrote (i : nat) (v : string) (w : World) : World :=
  mkWorld (with_feedback (<[i := v]> (feedback (session w))) (session w))
    (io w) (timers w).

(** ** Sample page contents *)

Module Scenario.
Import Sample.

(** The text items pdf.js gives for page [i] of a document built by
    [pdfOfPages]. *)
Definition itemsOf (pages : list (list string)) (i : Z) : list TextItem :=
  map mkTextItem (default [] (pages !! Z.to_nat (i - 1))).

End Scenario.

(** ** More of src/App.tsx: the handlers written in the markup *)

Definition handleDragOver : M unit := setIsDragOver true.

Definition handleDragLeave : M unit := setIsDragOver false.

(** [onChange] of the two page inputs and of the count slider. *)
Definition onStartPageChange (value : Z) : M unit :=
  setStartPage (Z.max 1 value).

Definition onEndPageChange (r : Session) (value : Z) : M unit :=
  setEndPage (Z.min (totalPages r) value).

Definition onQuestionCountChange (value : Z) : M unit :=
  setQuestionCount value.

(** The close mark of the error banner. *)
Definition onDismissError : M unit := setError None.

(** ** What each screen offers

    [renderContent] shows one screen per stage, and the error banner above
    it.  An action is offered when the control that triggers it is rendered
    and not disabled. *)

Inductive Action :=
| DismissError
| ClickWelcomeUpload
| ChooseFiles (files : list File)
| DropFiles (files : list File)
| DragOver
| DragLeave
| TypeText (value : string)
| ClickAnalyze
| ClickResetUpload
| ClickBack
| EditStartPage (value : Z)
| EditEndPage (value : Z)
| ClickConfirmPageRange
| ClickType (ty : QuestionType)
| EditCount (value : Z)
| ClickGenerate
| ClickAnswer (value : string)
| ClickCheck
| ClickNext
| ClickGenerateMore
| ClickReturnToStart.

(** Truthiness of a string that may be [null] or [undefined]. *)
Definition truthy_string (o : option string) : bool :=
  match o with
  | Some s => negb (String.eqb s EmptyString)
  | None => false
  end.

(** [typeof studyMaterial === 'string'] *)
Definition isString (m : option StudyMaterial) : bool :=
  match m with
  | Some (Text _) => true
  | _ => false
  end.

(** [renderUpload] shows the loaded file with its two buttons when
    [fileName && !isParsing], and the drop zone with the text area
    otherwise. *)
Definition showsLoadedFile (r : Session) : bool :=
  negb (String.eqb (fileName r) EmptyString) && negb (isParsing r).

(** [disabled] of the analyze button under the text area. *)
Definition analyzeDisabled (r : Session) : bool :=
  isParsing r
  || (negb (truthy_material (studyMaterial r)) && negb (truthy (file r))).

(** [readOnly] of the text area. *)
Definition textareaReadOnly (r : Session) : bool :=
  isParsing r || negb (isString (studyMaterial r)).

(** [disabled] of the continue button of the page-range screen. *)
Definition confirmDisabled (r : Session) : bool :=
  (startPage r >? endPage r) || (startPage r <? 1)
  || (endPage r >? totalPages r).

(** [hasAnswered] of [renderAnswering]. *)
Definition hasAnswered (r : Session) : bool :=
  truthy (feedback r !! currentQuestionIndex r).

(** The answer buttons of [renderAnswering]: one per option of a question
    with [options], and the two of a question with a boolean [answer]. *)
Definition answerOffered (r : Session) (value : string) : bool :=
  match questions r !! currentQuestionIndex r with
  | Some q =>
      negb (hasAnswered r)
      && (match options q with
          | Some opts => bool_decide (value ∈ opts)
          | None => false
          end
          || (truthy (answer q) && bool_decide (value ∈ ["true"; "false"])))
  | None => false
  end.

Definition offered (r : Session) (a : Action) : bool :=
  match a with
  | DismissError => truthy_string (error r)
  | _ =>
      match stage r with
      | WELCOME =>
          match a with
          | ClickWelcomeUpload => true
          | _ => false
          end
      | UPLOAD =>
          if showsLoadedFile r then
            match a with
            | ClickAnalyze | ClickResetUpload => true
            | _ => false
            end
          else
            match a with
            | ChooseFiles _ => negb (isParsing r)
            | DropFiles _ | DragOver | DragLeave => true
            | TypeText _ => negb (textareaReadOnly r)
            | ClickAnalyze => negb (analyzeDisabled r)
            | _ => false
            end
      | SELECT_PAGE_RANGE =>
          match a with
          | ClickBack | EditStartPage _ | EditEndPage _ => true
          | ClickConfirmPageRange => negb (confirmDisabled r)
          | _ => false
          end
      | SELECT_TYPE =>
          match a with
          | ClickBack | ClickType _ => true
          | _ => false
          end
      | SELECT_COUNT =>
          match a with
          | ClickBack | ClickGenerate => true
          | EditCount value => (1 <=? value) && (value <=? 10)
          | _ => false
          end
      | ANSWERING =>
          match a with
          | ClickBack => truthy (questions r !! currentQuestionIndex r)
          | ClickAnswer value => answerOffered r value
          | ClickCheck =>
              checkButtonRendered r
              && truthy_string (userAnswers r !! currentQuestionIndex r)
          | ClickNext =>
              truthy (questions r !! currentQuestionIndex r) && hasAnswered r
          | _ => false
          end
      | COMPLETED =>
          match a with
          | ClickGenerateMore | ClickReturnToStart => true
          | _ => false
          end
      | PROCESSING | GENERATING => false
      end
  end.

(** The handler each control calls, in the render [r]. *)
Definition handlerOf (env : Env) (a : Action) (r : Session) : M unit :=
  match a with
  | DismissError => onDismissError
  | ClickWelcomeUpload => onWelcomeUpload
  | ChooseFiles files => handleFileChange env r files
  | DropFiles files => handleDrop env r files
  | DragOver => handleDragOver
  | DragLeave => handleDragLeave
  | TypeText value => onTextareaChange r value
  | ClickAnalyze => handleAnalyze env r
  | ClickResetUpload => handleResetUpload
  | ClickBack => handleBack r
  | EditStartPage value => onStartPageChange value
  | EditEndPage value => onEndPageChange r value
  | ClickConfirmPageRange => handleConfirmPageRange env r
  | ClickType ty => handleSelectType ty
  | EditCount value => onQuestionCountChange value
  | ClickGenerate => handleGenerateQuestions env r
  | ClickAnswer value => handleAnswerSelect r value
  | ClickCheck => handleCheckAnswer env r
  | ClickNext => handleNextQuestion r
  | ClickGenerateMore => handleGenerateMore
  | ClickReturnToStart => handleReturnToStart
  end.

(** The event loop restricted to what the screens offer: an action that is
    not offered does not happen. *)
Inductive UiEvent :=
| Act (a : Action)
| Settle (n : nat)
| Elapse (n : nat).

Definition uiStep (env : Env) (l : Loop) (e : UiEvent) : Loop :=
  match e with
  | Act a =>
      if offered (session (world l)) a
      then step l (Invoke (handlerOf env a))
      else l
  | Settle n => step l (Resume n)
  | Elapse n => step l (Fire n)
  end.

Definition uiRun (env : Env) (l : Loop) (es : list UiEvent) : Loop :=
  fold_left (uiStep env) es l.

(** The same without overlap: every handler is run to its end before the
    next event. *)
Inductive SeqEvent :=
| Do (a : Action)
| Tick (n : nat).

Definition seqStep (env : Env) (w : World) (e : SeqEvent) : World :=
  match e with
  | Do a =>
      if offered (session w) a
      then snd (run (handlerOf env a (session w) w))
      else w
  | Tick n =>
      match timers w !! n with
      | Some tm =>
          fire tm (mkWorld (session w) (io w) (delete n (timers w)))
      | None => w
      end
  end.

Definition seqRun (env : Env) (w : World) (es : list SeqEvent) : World :=
  fold_left (seqStep env) es w.

(** The files an event brings in. *)
Definition filesOf (a : Action) : list File :=
  match a with
  | ChooseFiles files | DropFiles files => files
  | _ => []
  end.

(** ** Invariants of the quiz cells *)

(** Answers and feedback are recorded only for questions of the list, and
    the answering screen has a current question. *)
Definition quizConsistent (s : Session) : Prop :=
  (forall i, is_Some (userAnswers s !! i) \/ is_Some (feedback s !! i) ->
             (i < length (questions s))%nat)
  /\ (stage s = ANSWERING ->
      (currentQuestionIndex s < length (questions s))%nat).

Definition worldConsistent (w : World) : Prop :=
  quizConsistent (session w)
  /\ Forall (fun tm => forall s, quizConsistent s ->
                                 quizConsistent (callback tm s))
       (timers w).

(** A computation keeps the world consistent at every point where it stops,
    provided it finds it consistent whenever it is resumed. *)
Fixpoint keepsConsistent {A} (s : Step A) : Prop :=
  match s with
  | Finished _ w => worldConsistent w
  | Suspended w k =>
      worldConsistent w
      /\ forall w', worldConsistent w' -> keepsConsistent (k w')
  end.

Definition loopConsistent (l : Loop) : Prop :=
  worldConsistent (world l)
  /\ Forall (fun k => forall w, worldConsistent w -> keepsConsistent (k w))
       (suspended l).

(** ** src/services/geminiService.ts and src/constants.ts *)

Module Gemini.

(** The specific Gemini model to be used for generating questions. *)
Definition GEMINI_MODEL : string := "gemini-2.5-flash".

(** The double quote. *)
Definition DQ : string := String (ascii_of_nat 34) EmptyString.

(** The response schemas, as far as the service writes them. *)
#[warnings="-register-all"]
Inductive Schema :=
| SString (description : option string)
| SBoolean (description : option string)
| SArrayOf (items : Schema) (description : option string)
| SObject (properties : list (string * Schema)) (required : list string).

(** [contents] of a request: a string, or a text part and an image part. *)
Inductive Contents :=
| ContentsString (s : string)
| ContentsParts (text : string) (image : ImagePart).

Record Request := mkRequest {
  model : string;
  contents : Contents;
  responseMimeType : string;
  responseSchema : Schema
}.

(** [response.text] may be [undefined]. *)
Record Response := mkResponse {
  response_text : option string
}.

(** What [JSON.parse] makes of the response text: a syntax error, a value
    that is not an array, or an array, whose elements the service hands on
    as questions without looking at them. *)
Inductive Parsed :=
| SyntaxError
| NotAnArray
| ArrayOf (qs : list Question).

(** What the service takes from outside: the environment variable, the
    client call, and the two built-ins applied to the response text. *)
Record Api := mkApi {
  API_KEY : option string;
  generateContent : Request -> Promise Response;
  trim : string -> string;
  JSON_parse : string -> Parsed
}.

Definition multipleChoiceSchema : Schema :=
  SObject
    [ ("question", SString (Some "The question text."));
      ("options",
       SArrayOf (SString None)
         (Some "An array of exactly 4 possible answers."));
      ("correctAnswer",
       SString (Some "The correct answer from the options.")) ]
    ["question"; "options"; "correctAnswer"].

Definition trueFalseSchema : Schema :=
  SObject
    [ ("question", SString (Some "The true/false statement."));
      ("answer", SBoolean (Some "The correct answer, true or false.")) ]
    ["question"; "answer"].

(** The instruction added for multiple-choice questions. *)
Definition difficultyText : string :=
  "For the multiple-choice questions, ensure there are exactly"
  +:+ " four options. Slightly increase the difficulty by making"
  +:+ " the incorrect options (distractors) plausible and closely"
  +:+ " related to the correct answer.".

(** The fixed lines of [promptText]. *)
Definition focusLine : string :=
  "Focus on the core concepts and most important information"
  +:+ " that is likely to be on a test. Pay close attention to key"
  +:+ " features, conditions, methods, definitions, and other"
  +:+ " significant details. Ignore secondary details or filler"
  +:+ " content.".

Definition selfContainedLine : string :=
  "The questions must be self-contained and must not refer to"
  +:+ " the source text with phrases like " +:+ DQ +:+ "According to the text" +:+ DQ
  +:+ " or " +:+ DQ +:+ "As specified in the text" +:+ DQ +:+ ".".

Definition schemaLine : string :=
  "Ensure the response is a JSON array of objects that strictly"
  +:+ " follows the provided schema.".

(** [promptText] *)
Definition promptText (type : QuestionType) (count : Z) (language : string)
    : string :=
  let questionTypeName :=
    match type with
    | MultipleChoice => "multiple-choice questions"
    | TrueFalse => "true/false questions"
    end in
  let difficultyInstruction :=
    match type with
    | MultipleChoice => difficultyText
    | TrueFalse => EmptyString
    end in
  "Based on the following content, generate exactly " +:+ pretty count
  +:+ " " +:+ questionTypeName +:+ " in " +:+ language +:+ "." +:+ Js.LF
  +:+ focusLine +:+ Js.LF
  +:+ selfContainedLine +:+ Js.LF
  +:+ difficultyInstruction +:+ Js.LF
  +:+ schemaLine.

Definition requestContents (studyMaterial : StudyMaterial)
    (type : QuestionType) (count : Z) (language : string) : Contents :=
  match studyMaterial with
  | Text s =>
      ContentsString
        (promptText type count language +:+ Js.LF +:+ Js.LF +:+ "Text:"
         +:+ Js.LF +:+ "---" +:+ Js.LF +:+ s +:+ Js.LF +:+ "---")
  | Image part => ContentsParts (promptText type count language) part
  end.

Definition request (studyMaterial : StudyMaterial) (type : QuestionType)
    (count : Z) (language : string) : Request :=
  {| model := GEMINI_MODEL;
     contents := requestContents studyMaterial type count language;
     responseMimeType := "application/json";
     responseSchema :=
       SArrayOf
         (match type with
          | MultipleChoice => multipleChoiceSchema
          | TrueFalse => trueFalseSchema
          end)
         None |}.

Definition keyMissing : JsError := "API_KEY environment variable not set.".

Definition generationFailed : JsError :=
  "Failed to generate questions. Please check the console for details.".

(** [generateQuestions]: the promise it returns, once settled. *)
Definition generateQuestions (api : Api) (studyMaterial : StudyMaterial)
    (type : QuestionType) (count : Z) (language : string)
    : Promise (list Question) :=
  if negb (truthy_string (API_KEY api)) then Rejected keyMissing
  else
    match generateContent api (request studyMaterial type count language) with
    | Resolved response =>
        match response_text response with
        | Some text =>
            match JSON_parse api (trim api text) with
            | ArrayOf generatedQuestions => Resolved generatedQuestions
            | NotAnArray => Rejected generationFailed
            | SyntaxError => Rejected generationFailed
            end
        | None => Rejected generationFailed
        end
    | Rejected _ => Rejected generationFailed
    end.

End Gemini.

(** The environment of a render whose generator is the service. *)
Definition withService (api : Gemini.Api) (env : Env) : Env :=
  {| t := t env;
     language := language env;
     readAsDataURL := readAsDataURL env;
     arrayBuffer := arrayBuffer env;
     fileText := fileText env;
     getDocument := getDocument env;
     extractRawText := extractRawText env;
     generateQuestions := Gemini.generateQuestions api |}.

(** ** Helpers for the statements *)

(** [c] occurs in [s]. *)
Fixpoint occurs (c : ascii) (s : string) : bool :=
  match s with
  | EmptyString => false
  | String a s' => Ascii.eqb a c || occurs c s'
  end.

(** An edit of one of the two page inputs. *)
Definition isPageEdit (e : SeqEvent) : bool :=
  match e with
  | Do (EditStartPage _) | Do (EditEndPage _) => true
  | _ => false
  end.

(** Every file an event brings in has a name. *)
Definition filesNamed (e : SeqEvent) : bool :=
  match e with
  | Do a =>
      forallb (fun f => negb (String.eqb (file_name f) EmptyString))
        (filesOf a)
  | Tick _ => true
  end.

(** A text as study material, or a loaded file, comes with a file name. *)
Definition textHasFileName (s : Session) : Prop :=
  (isString (studyMaterial s) = true -> fileName s <> EmptyString)
  /\ (file s <> None -> fileName s <> EmptyString).

Definition worldNamed (w : World) : Prop :=
  textHasFileName (session w)
  /\ Forall (fun tm => forall s, textHasFileName s ->
                                 textHasFileName (callback tm s))
       (timers w).

(** Every action of the list is offered when its turn comes. *)
Fixpoint allOffered (env : Env) (l : Loop) (es : list UiEvent) : bool :=
  match es with
  | [] => true
  | e :: es' =>
      match e with
      | Act a => offered (session (world l)) a
      | Settle n => bool_decide (n < length (suspended l))%nat
      | Elapse n => bool_decide (n < length (timers (world l)))%nat
      end
      && allOffered env (uiStep env l e) es'
  end.

(** A PDF is dropped, and an image while the PDF is still being opened; the
    image is read, and the user presses analyze on the loaded image; the PDF
    then opens in its two steps. *)
Definition overlappingLoads (pdf image : File) : list UiEvent :=
  [ Act ClickWelcomeUpload;
    Act (DropFiles [pdf]);
    Act (DropFiles [image]);
    Settle 1;
    Act ClickAnalyze;
    Settle 0;
    Settle 0 ].

(** The same drops, but the PDF is slow to open: after analyze is pressed
    the timer elapses, the user picks true/false questions and asks to
    generate them; the PDF then opens in its two steps, while the generator
    has not answered yet. *)
Definition overlappingGeneration (pdf image : File) : list UiEvent :=
  [ Act ClickWelcomeUpload;
    Act (DropFiles [pdf]);
    Act (DropFiles [image]);
    Settle 1;
    Act ClickAnalyze;
    Elapse 0;
    Act (ClickType TrueFalse);
    Act ClickGenerate;
    Settle 0;
    Settle 1 ].

(** * Properties *)

(** ** Strings and the monad *)

Lemma append_nil_r (s : string) : s +:+ EmptyString = s.
Proof.
  induction s as [|a s IH]; [reflexivity|].
  change (String a (s +:+ EmptyString) = String a s). now rewrite IH.
Qed.

Lemma append_assoc (s1 s2 s3 : string) :
  (s1 +:+ s2) +:+ s3 = s1 +:+ s2 +:+ s3.
Proof.
  induction s1 as [|a s1 IH]; [reflexivity|].
  change (String a ((s1 +:+ s2) +:+ s3) = String a (s1 +:+ s2 +:+ s3)).
  now rewrite IH.
Qed.

Lemma run_bind {A B} (s : Step A) (f : A -> M B) :
  run (bind_step s f) =
  match run s with
  | (Ok a, w) => run (f a w)
  | (Thrown e, w) => (Thrown e, w)
  end.
Proof.
  induction s as [[a|e] w|w k IH]; cbn; try reflexivity.
  apply IH.
Qed.

Lemma run_catch {A} (s : Step A) (h : JsError -> M A) :
  run (catch_step s h) =
  match run s with
  | (Ok a, w) => (Ok a, w)
  | (Thrown e, w) => run (h e w)
  end.
Proof.
  induction s as [[a|e] w|w k IH]; cbn; try reflexivity.
  apply IH.
Qed.

(** Unfolding the monad, so that a computation applied to a world runs. *)
Ltac unfold_m :=
  unfold setStage, setStudyMaterial, setQuestionType, setQuestionCount,
    setQuestions, setCurrentQuestionIndex, setUserAnswers, setFeedback,
    setError, setIsParsing, setIsDragOver, setFileName, setFile,
    setTotalPages, setStartPage, setEndPage;
  unfold mbind, M_bind, mret, M_ret, throw, try_catch, update, log,
    setTimeout, await.

Ltac run_m := unfold_m; cbn [bind_step catch_step run session io timers].

(** ** The page loop *)

Lemma pageTexts_empty items i e : e < i -> pageTexts items i e = [].
Proof. intros H. unfold pageTexts. rewrite seqZ_nil by lia. reflexivity. Qed.

Lemma pageTexts_first items i e :
  i <= e ->
  pageTexts items i e =
  Js.join " " (map str (items i)) :: pageTexts items (i + 1) e.
Proof.
  intros H. unfold pageTexts. rewrite seqZ_cons by lia. cbn [map].
  replace (Z.succ i) with (i + 1) by lia.
  replace (Z.pred (e + 1 - i)) with (e + 1 - (i + 1)) by lia.
  reflexivity.
Qed.

Lemma extractIo_empty i e : e < i -> extractIo i e = [].
Proof. intros H. unfold extractIo. rewrite seqZ_nil by lia. reflexivity. Qed.

Lemma extractIo_first i e :
  i <= e ->
  extractIo i e = IoGetPage i :: IoGetTextContent :: extractIo (i + 1) e.
Proof.
  intros H. unfold extractIo. rewrite seqZ_cons by lia.
  replace (Z.succ i) with (i + 1) by lia.
  replace (Z.pred (e + 1 - i)) with (e + 1 - (i + 1)) by lia.
  reflexivity.
Qed.

Lemma followedByBlankLines_cons p texts :
  followedByBlankLines (p :: texts) =
  p +:+ Js.LF +:+ Js.LF +:+ followedByBlankLines texts.
Proof.
  unfold followedByBlankLines. cbn [map].
  destruct (map _ texts) as [|x xs] eqn:E; cbn [String.concat].
  - now rewrite append_nil_r.
  - rewrite !append_assoc. reflexivity.
Qed.

Lemma extractLoop_run pdf items e n :
  forall i acc w,
    Z.to_nat (e + 1 - i) = n ->
    readable pdf items i e ->
    run (extractLoop pdf i e acc w) =
    (Ok (acc +:+ followedByBlankLines (pageTexts items i e)),
     mkWorld (session w) (io w ++ extractIo i e) (timers w)).
Proof.
  induction n as [|n IH]; intros i acc w Hn Hr;
    rewrite extractLoop_equation_1; unfold extractLoop_unfold_clause_1;
    destruct (Z_le_dec i e) as [Hle|Hgt]; try lia.
  - rewrite pageTexts_empty, extractIo_empty by lia.
    cbn. rewrite append_nil_r, app_nil_r. destruct w; reflexivity.
  - destruct (Hr i ltac:(lia)) as ([content] & Hp & Ht).
    cbn in Ht. subst content.
    rewrite Hp. run_m. cbn [getTextContent]. run_m.
    rewrite IH.
    + rewrite (pageTexts_first items i e), (extractIo_first i e) by lia.
      rewrite followedByBlankLines_cons. cbn [session io timers].
      rewrite !append_assoc, <- !app_assoc. reflexivity.
    + lia.
    + intros j Hj. apply Hr. lia.
Qed.

(** ** Confirming a page range *)

(** What [handleConfirmPageRange] does, run to its end, on a loaded document
    whose requested pages can be read. *)
Lemma handleConfirmPageRange_run env r w f buf pdf items :
  file r = Some f ->
  1 <= startPage r <= endPage r ->
  endPage r <= totalPages r ->
  arrayBuffer env f = Resolved buf ->
  getDocument env buf = Resolved pdf ->
  readable pdf items (startPage r) (endPage r) ->
  run (handleConfirmPageRange env r w) =
  (Ok tt,
   mkWorld
     (with_stage SELECT_TYPE
        (with_studyMaterial
           (Some (Text (followedByBlankLines
                          (pageTexts items (startPage r) (endPage r)))))
           (with_stage PROCESSING (with_error None (session w)))))
     (io w ++ [IoArrayBuffer f; IoGetDocument buf]
           ++ extractIo (startPage r) (endPage r))
     (timers w)).
Proof.
  intros Hf Hse Het Hbuf Hpdf Hread.
  unfold handleConfirmPageRange. rewrite Hf.
  replace (startPage r >? endPage r) with false by lia.
  replace (startPage r <? 1) with false by lia.
  replace (endPage r >? totalPages r) with false by lia.
  cbn [orb]. rewrite Hbuf. run_m. rewrite Hpdf. run_m.
  rewrite run_catch, run_bind.
  rewrite (extractLoop_run pdf items (endPage r) _ _ _ _ eq_refl Hread).
  run_m. rewrite <- !app_assoc. reflexivity.
Qed.

(** C1, as amended.  On a loaded document whose pages can be read, confirming
    a range of whole-number bounds with
    [1 <= startPage <= endPage <= totalPages] reads the pages in ascending
    order, joins the fragments of each page with single spaces, and
    makes the study material the texts of the pages in that order, each
    followed by two line feeds, the last page included; the session ends in
    SELECT_TYPE with no error. *)
Theorem confirm_page_range_extracts env r w f buf pdf items :
  file r = Some f ->
  1 <= startPage r <= endPage r ->
  endPage r <= totalPages r ->
  arrayBuffer env f = Resolved buf ->
  getDocument env buf = Resolved pdf ->
  readable pdf items (startPage r) (endPage r) ->
  let result := run (handleConfirmPageRange env r w) in
  fst result = Ok tt
  /\ studyMaterial (session (snd result)) =
     Some (Text (followedByBlankLines
                   (pageTexts items (startPage r) (endPage r))))
  /\ stage (session (snd result)) = SELECT_TYPE
  /\ error (session (snd result)) = None
  /\ io (snd result) =
     (io w ++ [IoArrayBuffer f; IoGetDocument buf]
           ++ extractIo (startPage r) (endPage r))%list.
Proof.
  intros Hf Hse Het Hbuf Hpdf Hread result. subst result.
  rewrite (handleConfirmPageRange_run env r w f buf pdf items) by assumption.
  repeat split.
Qed.

Lemma sample_pages_readable :
  readable (Sample.pdfOfPages Sample.tenPages)
    (Scenario.itemsOf Sample.tenPages) 3 4.
Proof.
  intros j Hj. assert (j = 3 \/ j = 4) as [-> | ->] by lia;
    eexists; split; reflexivity.
Qed.

Lemma confirm_page_range_extracts_witness :
  let r := Sample.pages3to4 in
  let result :=
    run (handleConfirmPageRange (Sample.env (Rejected "offline")) r
           (worldOf r)) in
  fst result = Ok tt
  /\ studyMaterial (session (snd result)) =
     Some (Text (followedByBlankLines
                   (pageTexts (Scenario.itemsOf Sample.tenPages) 3 4)))
  /\ stage (session (snd result)) = SELECT_TYPE
  /\ error (session (snd result)) = None
  /\ io (snd result) =
     ([] ++ [IoArrayBuffer Sample.notes; IoGetDocument []]
         ++ extractIo 3 4)%list.
Proof.
  apply (confirm_page_range_extracts (Sample.env (Rejected "offline"))
           Sample.pages3to4 (worldOf Sample.pages3to4) Sample.notes []
           (Sample.pdfOfPages Sample.tenPages)
           (Scenario.itemsOf Sample.tenPages)).
  - reflexivity.
  - cbn. lia.
  - cbn. lia.
  - reflexivity.
  - reflexivity.
  - exact sample_pages_readable.
Defined.

(** C1, as stated, fails: with ten pages and the range 3 to 4 the extracted
    text is page 3, a blank line, page 4 and one more blank line, which is
    not page 3 and page 4 separated by a blank line. *)
Lemma confirm_pages_3_to_4_ends_with_blank_line :
  let r := Sample.pages3to4 in
  let page3 := "The heart pumps" in
  let page4 := "Blood vessels" in
  let extracted :=
    studyMaterial (session (snd (run
      (handleConfirmPageRange (Sample.env (Rejected "offline")) r
         (worldOf r))))) in
  (1 <= startPage r <= endPage r /\ endPage r <= totalPages r)
  /\ pageTexts (Scenario.itemsOf Sample.tenPages) 3 4 = [page3; page4]
  /\ separatedByBlankLines [page3; page4] =
     page3 +:+ Js.LF +:+ Js.LF +:+ page4
  /\ extracted =
     Some (Text (page3 +:+ Js.LF +:+ Js.LF +:+ page4 +:+ Js.LF +:+ Js.LF))
  /\ extracted <> Some (Text (separatedByBlankLines [page3; page4])).
Proof.
  cbv zeta. split; [cbn; lia|].
  split; [reflexivity|]. split; [reflexivity|].
  split; [vm_compute; reflexivity|].
  vm_compute. intros H. discriminate H.
Qed.

(** ** Loading a file *)

(** C2, on the code.  When an image is loaded in a render that has no study
    material yet (none, or an empty text), [processFile] stores the image
    (the data URL after its first comma, and the type of the file) and then
    calls the [handleAnalyze] of that render, which still sees no material:
    the "no text" error is surfaced, the stage is left as it is and no timer
    is started. *)
Theorem load_image_without_prior_material env r w f url :
  Js.startsWith (file_type f) "image/" = true ->
  readAsDataURL env f = Resolved url ->
  truthy_material (studyMaterial r) = false ->
  let result := run (processFile env r f w) in
  fst result = Ok tt
  /\ studyMaterial (session (snd result)) =
     Some (Image {| data := Js.split "," url !! 1%nat;
                    mimeType := file_type f |})
  /\ stage (session (snd result)) = stage (session w)
  /\ error (session (snd result)) = Some (t env "error_no_text")
  /\ timers (snd result) = timers w.
Proof.
  intros Himg Hurl Hmat result. subst result.
  unfold processFile, fileToBase64, handleAnalyze.
  rewrite Himg, Hurl, Hmat. run_m. repeat split.
Qed.

Lemma load_image_without_prior_material_witness :
  let r := Sample.uploading in
  let result :=
    run (processFile (Sample.env (Rejected "offline")) r Sample.photo
           (worldOf r)) in
  fst result = Ok tt
  /\ studyMaterial (session (snd result)) =
     Some (Image {| data := Js.split "," "data:image/png;base64,QUJD"
                            !! 1%nat;
                    mimeType := "image/png" |})
  /\ stage (session (snd result)) = UPLOAD
  /\ error (session (snd result)) = Some "error_no_text"
  /\ timers (snd result) = [].
Proof.
  apply (load_image_without_prior_material (Sample.env (Rejected "offline"))
           Sample.uploading (worldOf Sample.uploading) Sample.photo
           "data:image/png;base64,QUJD");
    reflexivity.
Defined.

(** The same load in a render that already has study material (a text typed
    before the file was chosen) does go to PROCESSING and starts the
    analysis timer. *)
Lemma load_image_with_prior_material env r w f url :
  Js.startsWith (file_type f) "image/" = true ->
  readAsDataURL env f = Resolved url ->
  truthy_material (studyMaterial r) = true ->
  let result := run (processFile env r f w) in
  fst result = Ok tt
  /\ studyMaterial (session (snd result)) =
     Some (Image {| data := Js.split "," url !! 1%nat;
                    mimeType := file_type f |})
  /\ stage (session (snd result)) = PROCESSING
  /\ error (session (snd result)) = None
  /\ timers (snd result) =
     (timers w ++ [mkTimer (with_stage SELECT_TYPE) 1500])%list.
Proof.
  intros Himg Hurl Hmat result. subst result.
  unfold processFile, fileToBase64, handleAnalyze.
  rewrite Himg, Hurl, Hmat. run_m. repeat split.
Qed.

(** C8.  Loading a file of type application/pdf that opens as a document of
    [n] pages ends in SELECT_PAGE_RANGE with [totalPages = n],
    [startPage = 1] and [endPage = n]. *)
Theorem load_pdf_selects_page_range env r w f buf pdf n :
  file_type f = "application/pdf" ->
  arrayBuffer env f = Resolved buf ->
  getDocument env buf = Resolved pdf ->
  numPages pdf = n ->
  let result := run (processFile env r f w) in
  fst result = Ok tt
  /\ stage (session (snd result)) = SELECT_PAGE_RANGE
  /\ totalPages (session (snd result)) = n
  /\ startPage (session (snd result)) = 1
  /\ endPage (session (snd result)) = n.
Proof.
  intros Hty Hbuf Hpdf Hn result. subst result n.
  unfold processFile. rewrite Hty. cbn [Js.startsWith String.prefix].
  cbn [String.eqb Ascii.eqb Bool.eqb]. rewrite Hbuf. run_m.
  rewrite Hpdf. run_m. repeat split.
Qed.

Lemma load_pdf_selects_page_range_witness :
  let r := Sample.uploading in
  let result :=
    run (processFile (Sample.env (Rejected "offline")) r Sample.notes
           (worldOf r)) in
  fst result = Ok tt
  /\ stage (session (snd result)) = SELECT_PAGE_RANGE
  /\ totalPages (session (snd result)) = 10
  /\ startPage (session (snd result)) = 1
  /\ endPage (session (snd result)) = 10.
Proof.
  apply (load_pdf_selects_page_range (Sample.env (Rejected "offline"))
           Sample.uploading (worldOf Sample.uploading) Sample.notes []
           (Sample.pdfOfPages Sample.tenPages) 10);
    reflexivity.
Defined.

(** C3.  On an invalid range ([startPage > endPage], [startPage < 1] or
    [endPage > totalPages]) [handleConfirmPageRange] finishes at once,
    without reaching an [await]: it surfaces the invalid-page-range error and
    writes nothing else, so the stage stays what it was (SELECT_PAGE_RANGE,
    where the action is offered), and the log of outside calls and the timers
    are untouched. *)
Theorem invalid_page_range_rejected env r w :
  startPage r > endPage r \/ startPage r < 1 \/ endPage r > totalPages r ->
  handleConfirmPageRange env r w =
  Finished (Ok tt)
    (mkWorld
       (with_error (Some (t env "error_invalid_page_range")) (session w))
       (io w) (timers w))
  /\ stage (with_error (Some (t env "error_invalid_page_range")) (session w))
     = stage (session w).
Proof.
  intros Hbad. split; [|reflexivity].
  unfold handleConfirmPageRange. destruct (file r) as [f|]; [|reflexivity].
  assert ((startPage r >? endPage r) || (startPage r <? 1)
          || (endPage r >? totalPages r) = true) as ->; [|reflexivity].
  rewrite !orb_true_iff. lia.
Qed.

Lemma invalid_page_range_rejected_witness :
  let r := with_endPage 2 (with_startPage 5 Sample.pages3to4) in
  let e := Sample.env (Rejected "offline") in
  handleConfirmPageRange e r (worldOf r) =
  Finished (Ok tt)
    (mkWorld (with_error (Some "error_invalid_page_range") r) [] [])
  /\ stage (with_error (Some "error_invalid_page_range") r)
     = SELECT_PAGE_RANGE.
Proof.
  apply (invalid_page_range_rejected (Sample.env (Rejected "offline"))
           (with_endPage 2 (with_startPage 5 Sample.pages3to4))
           (worldOf (with_endPage 2 (with_startPage 5 Sample.pages3to4)))).
  left. cbn. lia.
Defined.

(** ** Generating questions *)

(** C4.  When the generator call fails or gives an empty list,
    [handleGenerateQuestions], run to its end, surfaces the generation-failed
    error and puts the stage back to SELECT_COUNT; question type, question
    count and study material are those of the session it ran on. *)
Theorem generation_failure_returns_to_count env r w ty m :
  questionType r = Some ty ->
  studyMaterial r = Some m ->
  truthy_material (Some m) = true ->
  (exists e,
     generateQuestions env m ty (questionCount r) (language env) = Rejected e)
  \/ generateQuestions env m ty (questionCount r) (language env)
     = Resolved [] ->
  let result := run (handleGenerateQuestions env r w) in
  fst result = Ok tt
  /\ error (session (snd result)) = Some (t env "error_generation_failed")
  /\ stage (session (snd result)) = SELECT_COUNT
  /\ questionType (session (snd result)) = questionType (session w)
  /\ questionCount (session (snd result)) = questionCount (session w)
  /\ studyMaterial (session (snd result)) = studyMaterial (session w).
Proof.
  intros Hty Hm Htruthy Hgen result. subst result.
  unfold handleGenerateQuestions. rewrite Hty, Hm, Htruthy. cbn [negb].
  destruct Hgen as [[e He] | He]; rewrite He; run_m; repeat split.
Qed.

Lemma generation_failure_returns_to_count_witness :
  let r := Sample.counting in
  let result :=
    run (handleGenerateQuestions (Sample.env (Resolved [])) r (worldOf r)) in
  fst result = Ok tt
  /\ error (session (snd result)) = Some "error_generation_failed"
  /\ stage (session (snd result)) = SELECT_COUNT
  /\ questionType (session (snd result)) = Some TrueFalse
  /\ questionCount (session (snd result)) = 5
  /\ studyMaterial (session (snd result))
     = Some (Text "The heart pumps blood.").
Proof.
  apply (generation_failure_returns_to_count (Sample.env (Resolved []))
           Sample.counting (worldOf Sample.counting) TrueFalse
           (Text "The heart pumps blood.")).
  - reflexivity.
  - reflexivity.
  - reflexivity.
  - right. reflexivity.
Defined.

(** C10.  Called in a render without question type, or without study
    material (none, or an empty text), [handleGenerateQuestions] finishes at
    once and leaves the world as it is: no cell is written, no error is
    surfaced, the generator is not called. *)
Theorem generate_without_type_or_material_is_noop env r w :
  questionType r = None \/ truthy_material (studyMaterial r) = false ->
  handleGenerateQuestions env r w = Finished (Ok tt) w.
Proof.
  intros [Hty | Hm]; unfold handleGenerateQuestions.
  - rewrite Hty. reflexivity.
  - destruct (questionType r); [|reflexivity].
    destruct (studyMaterial r) as [m|]; [|reflexivity].
    rewrite Hm. reflexivity.
Qed.

Lemma generate_without_type_or_material_is_noop_witness :
  let r := with_studyMaterial None Sample.counting in
  handleGenerateQuestions (Sample.env (Resolved Sample.someQuestions)) r
    (worldOf r)
  = Finished (Ok tt) (worldOf r).
Proof.
  apply (generate_without_type_or_material_is_noop
           (Sample.env (Resolved Sample.someQuestions))
           (with_studyMaterial None Sample.counting)
           (worldOf (with_studyMaterial None Sample.counting))).
  right. reflexivity.
Defined.

(** ** Checking an answer *)

Lemma strict_eq_decide (a b : option string) :
  Js.strict_eq a b = bool_decide (a = b).
Proof.
  destruct a as [x|], b as [y|]; cbn; try reflexivity.
  destruct (String.eqb_spec x y) as [->|Hne].
  - now rewrite bool_decide_eq_true_2.
  - rewrite bool_decide_eq_false_2; [reflexivity | congruence].
Qed.

Lemma wrote_twice i v w : wrote i v (wrote i v w) = wrote i v w.
Proof.
  unfold wrote. cbn. now rewrite insert_insert_eq.
Qed.

(** [handleCheckAnswer] on an existing question writes [feedbackText]. *)
Lemma handleCheckAnswer_run env r w q :
  questions r !! currentQuestionIndex r = Some q ->
  handleCheckAnswer env r w =
  Finished (Ok tt)
    (wrote (currentQuestionIndex r)
       (feedbackText env q (userAnswers r !! currentQuestionIndex r)) w).
Proof.
  intros Hq. unfold handleCheckAnswer, feedbackText. rewrite Hq.
  destruct (truthy (options q)).
  - destruct (Js.strict_eq _ _); reflexivity.
  - destruct (answer q) as [a|].
    + destruct (Js.strict_eq _ _); reflexivity.
    + reflexivity.
Qed.

(** C5.  [handleCheckAnswer] on a multiple-choice question writes the
    "correct" message exactly when the recorded answer is the string
    [correctAnswer], and otherwise the "incorrect" message, a space and
    [correctAnswer]; on a true/false question it compares the recorded answer
    with ["true"] or ["false"] as the boolean answer prints, and on a
    mismatch writes the "incorrect" message, a space and the localized word
    for the answer; called again from a render with the same question and the
    same recorded answer, it leaves the world as the first call made it. *)
Theorem check_answer_feedback env r w q :
  questions r !! currentQuestionIndex r = Some q ->
  let i := currentQuestionIndex r in
  let recorded := userAnswers r !! i in
  (forall opts correct,
     options q = Some opts ->
     correctAnswer q = Some correct ->
     handleCheckAnswer env r w =
     Finished (Ok tt)
       (wrote i (if bool_decide (recorded = Some correct)
                 then t env "correct_feedback"
                 else t env "incorrect_feedback" +:+ " " +:+ correct) w))
  /\ (forall a,
        options q = None ->
        answer q = Some a ->
        handleCheckAnswer env r w =
        Finished (Ok tt)
          (wrote i (if bool_decide (recorded = Some (Js.String_of_bool a))
                    then t env "correct_feedback"
                    else t env "incorrect_feedback" +:+ " "
                         +:+ (if a then t env "true" else t env "false")) w))
  /\ (forall w1 r',
        handleCheckAnswer env r w = Finished (Ok tt) w1 ->
        questions r' !! currentQuestionIndex r' = Some q ->
        currentQuestionIndex r' = i ->
        userAnswers r' !! i = recorded ->
        handleCheckAnswer env r' w1 = Finished (Ok tt) w1).
Proof.
  intros Hq i recorded. subst i recorded. repeat split.
  - intros opts correct Ho Hc.
    rewrite (handleCheckAnswer_run env r w q Hq). unfold feedbackText.
    rewrite Ho, Hc. cbv beta iota delta [truthy].
    rewrite strict_eq_decide. reflexivity.
  - intros a Ho Ha.
    rewrite (handleCheckAnswer_run env r w q Hq). unfold feedbackText.
    rewrite Ho, Ha. cbv beta iota delta [truthy].
    rewrite strict_eq_decide. reflexivity.
  - intros w1 r' Hfirst Hq' Hi Hu.
    rewrite (handleCheckAnswer_run env r w q Hq) in Hfirst.
    injection Hfirst as <-.
    rewrite (handleCheckAnswer_run env r' _ q Hq'), Hi, Hu.
    now rewrite wrote_twice.
Qed.

Lemma check_answer_feedback_witness :
  let r := Sample.answering in
  let e := Sample.env (Rejected "offline") in
  handleCheckAnswer e r (worldOf r)
  = Finished (Ok tt) (wrote 0 "correct_feedback" (worldOf r))
  /\ handleCheckAnswer e r (wrote 0 "correct_feedback" (worldOf r))
     = Finished (Ok tt) (wrote 0 "correct_feedback" (worldOf r)).
Proof.
  destruct (check_answer_feedback (Sample.env (Rejected "offline"))
              Sample.answering (worldOf Sample.answering)
              (MultipleChoiceQuestion "Capital of France?"
                 ["Paris"; "Rome"; "Oslo"; "Bern"] "Paris") eq_refl)
    as (Hchoice & _ & Hagain).
  split.
  - exact (Hchoice ["Paris"; "Rome"; "Oslo"; "Bern"] "Paris" eq_refl eq_refl).
  - apply Hagain; [|reflexivity..].
    exact (Hchoice ["Paris"; "Rome"; "Oslo"; "Bern"] "Paris" eq_refl eq_refl).
Defined.

(** C6, as amended.  On a question object with neither [options] nor
    [answer], [handleCheckAnswer] does not fail: it counts the answer as
    incorrect and writes the "incorrect" message followed by a space and an
    empty correct-answer text.  The check button that calls it is not
    rendered for such a question. *)
Theorem check_answer_without_options_or_answer env r w q :
  questions r !! currentQuestionIndex r = Some q ->
  options q = None ->
  answer q = None ->
  handleCheckAnswer env r w =
  Finished (Ok tt)
    (wrote (currentQuestionIndex r) (t env "incorrect_feedback" +:+ " ") w)
  /\ checkButtonRendered r = false.
Proof.
  intros Hq Ho Ha. split.
  - rewrite (handleCheckAnswer_run env r w q Hq). unfold feedbackText.
    rewrite Ho, Ha. reflexivity.
  - unfold checkButtonRendered. rewrite Hq, Ho, Ha. reflexivity.
Qed.

Lemma check_answer_without_options_or_answer_witness :
  let r := Sample.answeringBare in
  handleCheckAnswer (Sample.env (Rejected "offline")) r (worldOf r) =
  Finished (Ok tt) (wrote 0 ("incorrect_feedback" +:+ " ") (worldOf r))
  /\ checkButtonRendered r = false.
Proof.
  apply (check_answer_without_options_or_answer
           (Sample.env (Rejected "offline")) Sample.answeringBare
           (worldOf Sample.answeringBare) Sample.bareQuestion);
    reflexivity.
Defined.

(** C6, as stated, fails: on the sample question that has neither field the
    handler finishes normally, nothing is thrown, and the feedback of the
    question becomes the "incorrect" message with nothing after its space. *)
Lemma check_answer_on_bare_question_defaults :
  let r := Sample.answeringBare in
  let result :=
    run (handleCheckAnswer (Sample.env (Rejected "offline")) r (worldOf r)) in
  questions r !! currentQuestionIndex r = Some Sample.bareQuestion
  /\ options Sample.bareQuestion = None
  /\ answer Sample.bareQuestion = None
  /\ fst result = Ok tt
  /\ (forall e, fst result <> Thrown e)
  /\ feedback (session (snd result)) !! 0%nat = Some "incorrect_feedback ".
Proof.
  cbv zeta. repeat split.
  intros e H. discriminate H.
Qed.

(** ** Generate more *)

(** C7.  [handleGenerateMore] empties the questions, the answers and the
    feedback, puts the index back to 0 and the question count back to 5,
    clears the question type and the error, and sets the stage to
    SELECT_TYPE; the study material and every other cell, the log and the
    timers are as before.  This holds in any stage, COMPLETED (where the
    action is offered) included. *)
Theorem generate_more_resets_quiz w :
  handleGenerateMore w =
  Finished (Ok tt)
    (mkWorld
       {| stage := SELECT_TYPE;
          studyMaterial := studyMaterial (session w);
          questionType := None;
          questionCount := 5;
          questions := [];
          currentQuestionIndex := 0%nat;
          userAnswers := ∅;
          feedback := ∅;
          error := None;
          isParsing := isParsing (session w);
          isDragOver := isDragOver (session w);
          fileName := fileName (session w);
          file := file (session w);
          totalPages := totalPages (session w);
          startPage := startPage (session w);
          endPage := endPage (session w) |}
       (io w) (timers w)).
Proof. reflexivity. Qed.

(** ** Results that arrive late *)

(** The back control does nothing but clear the error while an analysis or a
    generation is outstanding. *)
Lemma back_is_idle_while_outstanding r w :
  stage r = PROCESSING \/ stage r = GENERATING ->
  handleBack r w =
  Finished (Ok tt) (mkWorld (with_error None (session w)) (io w) (timers w)).
Proof.
  intros [H | H]; unfold handleBack; rewrite H; reflexivity.
Qed.

(** C9, as amended.  Nothing compares the stage when a result arrives.  The
    callback that [handleAnalyze] gives to the timer sets the stage to
    SELECT_TYPE on whatever session it finds when the timer elapses; and
    [handleGenerateQuestions], suspended at the generator call, goes on when
    the call settles on whatever session it finds then: it records the
    questions, empties answers and feedback, resets the index and sets the
    stage to ANSWERING, or, on a failure or an empty list, surfaces the
    generation-failed error and sets the stage to SELECT_COUNT.  The back
    control is not offered in PROCESSING and GENERATING, and [handleBack]
    called there writes nothing but the error cell, which it clears. *)
Theorem late_results_are_applied env r w ty m :
  questionType r = Some ty ->
  studyMaterial r = Some m ->
  truthy_material (Some m) = true ->
  (exists tm,
     handleAnalyze env r w =
     Finished (Ok tt)
       (mkWorld (with_stage PROCESSING (with_error None (session w)))
          (io w) (timers w ++ [tm]))
     /\ forall w',
          fire tm w' =
          mkWorld (with_stage SELECT_TYPE (session w')) (io w') (timers w'))
  /\ (exists k,
        handleGenerateQuestions env r w =
        Suspended
          (mkWorld (with_error None (with_stage GENERATING (session w)))
             (io w ++ [IoGenerateQuestions m ty (questionCount r)
                         (language env)])
             (timers w))
          k
        /\ forall w',
             k w' =
             Finished (Ok tt)
               (mkWorld
                  match generateQuestions env m ty (questionCount r)
                          (language env) with
                  | Resolved (q :: qs) =>
                      with_stage ANSWERING
                        (with_feedback ∅
                           (with_userAnswers ∅
                              (with_currentQuestionIndex 0%nat
                                 (with_questions (q :: qs) (session w')))))
                  | _ =>
                      with_stage SELECT_COUNT
                        (with_error (Some (t env "error_generation_failed"))
                           (session w'))
                  end
                  (io w') (timers w')))
  /\ (forall r' w',
        stage r' = PROCESSING \/ stage r' = GENERATING ->
        offered r' ClickBack = false
        /\ handleBack r' w' =
           Finished (Ok tt)
             (mkWorld (with_error None (session w')) (io w') (timers w'))).
Proof.
  intros Hty Hm Htruthy. split; [|split].
  - eexists. split.
    + unfold handleAnalyze. rewrite Hm, Htruthy. run_m. reflexivity.
    + reflexivity.
  - eexists. split.
    + unfold handleGenerateQuestions. rewrite Hty, Hm, Htruthy. run_m.
      reflexivity.
    + intros w'. cbn beta.
      destruct (generateQuestions env m ty (questionCount r) (language env))
        as [[|q qs]|e]; reflexivity.
  - intros r' w' Hst. split.
    + unfold offered. destruct Hst as [-> | ->]; reflexivity.
    + now apply back_is_idle_while_outstanding.
Qed.

Lemma late_results_are_applied_witness :
  let r := Sample.counting in
  let e := Sample.env (Resolved Sample.someQuestions) in
  (exists tm,
     handleAnalyze e r (worldOf r) =
     Finished (Ok tt)
       (mkWorld (with_stage PROCESSING (with_error None r)) [] [tm])
     /\ forall w',
          fire tm w' =
          mkWorld (with_stage SELECT_TYPE (session w')) (io w') (timers w'))
  /\ (exists k,
        handleGenerateQuestions e r (worldOf r) =
        Suspended
          (mkWorld (with_error None (with_stage GENERATING r))
             [IoGenerateQuestions (Text "The heart pumps blood.") TrueFalse 5
                "en"]
             [])
          k
        /\ forall w',
             k w' =
             Finished (Ok tt)
               (mkWorld
                  (with_stage ANSWERING
                     (with_feedback ∅
                        (with_userAnswers ∅
                           (with_currentQuestionIndex 0%nat
                              (with_questions Sample.someQuestions
                                 (session w'))))))
                  (io w') (timers w')))
  /\ (forall r' w',
        stage r' = PROCESSING \/ stage r' = GENERATING ->
        offered r' ClickBack = false
        /\ handleBack r' w' =
           Finished (Ok tt)
             (mkWorld (with_error None (session w')) (io w') (timers w'))).
Proof.
  apply (late_results_are_applied (Sample.env (Resolved Sample.someQuestions))
           Sample.counting (worldOf Sample.counting) TrueFalse
           (Text "The heart pumps blood."));
    reflexivity.
Defined.

(** C9, as stated, fails.  Both runs are made of actions the screens offer
    when their turn comes, of settled promises and of elapsed timers.  In
    the first the session has left PROCESSING for SELECT_PAGE_RANGE when the
    analysis timer elapses, and the timer moves it to SELECT_TYPE.  In the
    second it has left GENERATING for SELECT_PAGE_RANGE when the generator
    answers, and the answer is recorded and the stage set to ANSWERING. *)
Lemma late_results_change_an_abandoned_stage :
  let e := Sample.env (Resolved Sample.someQuestions) in
  let timerRun := overlappingLoads Sample.notes Sample.photo in
  let before := uiRun e initialLoop timerRun in
  let after := uiStep e before (Elapse 0) in
  let generatorRun := overlappingGeneration Sample.notes Sample.photo in
  let before' := uiRun e initialLoop generatorRun in
  let after' := uiStep e before' (Settle 0) in
  (allOffered e initialLoop (timerRun ++ [Elapse 0]) = true
   /\ stage (session (world before)) = SELECT_PAGE_RANGE
   /\ length (timers (world before)) = 1%nat
   /\ stage (session (world after)) = SELECT_TYPE)
  /\ (allOffered e initialLoop (generatorRun ++ [Settle 0]) = true
      /\ stage (session (world before')) = SELECT_PAGE_RANGE
      /\ questions (session (world before')) = []
      /\ length (suspended before') = 1%nat
      /\ stage (session (world after')) = ANSWERING
      /\ questions (session (world after')) = Sample.someQuestions).
Proof.
  vm_compute. repeat split.
Qed.

(** * More properties *)

(** ** Walking through the questions *)

Lemma runEvents_app l es1 es2 :
  runEvents l (es1 ++ es2) = runEvents (runEvents l es1) es2.
Proof. unfold runEvents. apply fold_left_app. Qed.

Lemma next_steps l k :
  let s := session (world l) in
  (currentQuestionIndex s + k < length (questions s))%nat ->
  runEvents l (replicate k (Invoke handleNextQuestion)) =
  mkLoop
    (mkWorld (with_currentQuestionIndex (currentQuestionIndex s + k) s)
       (io (world l)) (timers (world l)))
    (suspended l).
Proof.
  revert l. induction k as [|k IH]; intros l s Hlt; subst s.
  - cbn. rewrite Nat.add_0_r.
    destruct l as [[s i tms] ks]. destruct s. reflexivity.
  - cbn [replicate runEvents fold_left].
    change (fold_left step ?es ?x) with (runEvents x es).
    assert (step l (Invoke handleNextQuestion) =
            mkLoop
              (mkWorld
                 (with_currentQuestionIndex
                    (currentQuestionIndex (session (world l)) + 1)
                    (session (world l)))
                 (io (world l)) (timers (world l)))
              (suspended l)) as ->.
    { cbn [step]. unfold handleNextQuestion.
      replace (_ <? _) with true by lia. reflexivity. }
    rewrite IH; cbn [world session suspended io timers with_currentQuestionIndex
                       currentQuestionIndex questions].
    + replace (currentQuestionIndex (session (world l)) + 1 + k)%nat
        with (currentQuestionIndex (session (world l)) + S k)%nat by lia.
      reflexivity.
    + lia.
Qed.

(** X1.  From question [i] of [n], pressing next [k] times with
    [i + k < n] only moves the index to [i + k]; pressing it once more at
    the last question leaves the index there and sets the stage to
    COMPLETED. *)
Theorem next_walks_to_completion l :
  let s := session (world l) in
  let i := currentQuestionIndex s in
  let n := length (questions s) in
  (i < n)%nat ->
  (forall k, (i + k < n)%nat ->
     world (runEvents l (replicate k (Invoke handleNextQuestion))) =
     mkWorld (with_currentQuestionIndex (i + k) s)
       (io (world l)) (timers (world l)))
  /\ world (runEvents l (replicate (n - i) (Invoke handleNextQuestion))) =
     mkWorld (with_stage COMPLETED (with_currentQuestionIndex (n - 1) s))
       (io (world l)) (timers (world l)).
Proof.
  intros s i n Hi. subst s i n. split.
  - intros k Hk. now rewrite next_steps by (cbv zeta; lia).
  - set (s := session (world l)) in *.
    replace (length (questions s) - currentQuestionIndex s)%nat
      with ((length (questions s) - 1 - currentQuestionIndex s) + 1)%nat
      by lia.
    rewrite replicate_add, runEvents_app.
    rewrite (next_steps l
               (length (questions s) - 1 - currentQuestionIndex s))
      by (cbv zeta; fold s; lia).
    fold s.
    cbn. unfold handleNextQuestion.
    cbn [currentQuestionIndex questions with_currentQuestionIndex].
    rewrite (proj2 (Z.ltb_ge _ _)) by lia.
    replace (currentQuestionIndex s
             + (length (questions s) - 1 - currentQuestionIndex s))%nat
      with (length (questions s) - 1)%nat by lia.
    reflexivity.
Qed.

Lemma next_walks_to_completion_witness :
  let l := mkLoop (worldOf Sample.answering) [] in
  let next := Invoke handleNextQuestion in
  world (runEvents l [next]) =
  worldOf (with_currentQuestionIndex 1 Sample.answering)
  /\ world (runEvents l [next; next]) =
     worldOf (with_stage COMPLETED
                (with_currentQuestionIndex 1 Sample.answering)).
Proof.
  destruct (next_walks_to_completion (mkLoop (worldOf Sample.answering) []))
    as [Hmove Hend].
  - cbn. lia.
  - split.
    + apply (Hmove 1%nat). cbn. lia.
    + exact Hend.
Defined.

(** With no question left to show (an empty list, or an index at or past
    the last question) next only sets the stage to COMPLETED. *)
Lemma next_at_the_end r w :
  (length (questions r) <= currentQuestionIndex r + 1)%nat ->
  handleNextQuestion r w =
  Finished (Ok tt)
    (mkWorld (with_stage COMPLETED (session w)) (io w) (timers w)).
Proof.
  intros H. unfold handleNextQuestion.
  replace (_ <? _) with false by lia. reflexivity.
Qed.

(** ** Going back *)

(** X2.  Where the back button is offered, [handleBack] leaves the stage for
    an earlier one: UPLOAD from the page range and from the type selection,
    SELECT_TYPE from the count selection and from answering.  In every
    other stage it writes nothing but the error cell. *)
Theorem back_moves_where_it_is_offered r w :
  stage (session w) = stage r ->
  (offered r ClickBack = true ->
   stage (session (snd (run (handleBack r w)))) <> stage r
   /\ stage (session (snd (run (handleBack r w)))) =
      match stage r with
      | SELECT_PAGE_RANGE | SELECT_TYPE => UPLOAD
      | _ => SELECT_TYPE
      end)
  /\ (stage r <> SELECT_PAGE_RANGE -> stage r <> SELECT_TYPE ->
      stage r <> SELECT_COUNT -> stage r <> ANSWERING ->
      handleBack r w =
      Finished (Ok tt)
        (mkWorld (with_error None (session w)) (io w) (timers w))).
Proof.
  intros Hst. split.
  - unfold offered, handleBack, handleResetUpload.
    destruct (stage r) eqn:E; try destruct (showsLoadedFile r);
      try discriminate; intros _; run_m; cbn; split; congruence.
  - intros H1 H2 H3 H4. unfold handleBack.
    destruct (stage r); try contradiction; reflexivity.
Qed.

Lemma back_moves_where_it_is_offered_witness :
  let r := Sample.answering in
  stage (session (snd (run (handleBack r (worldOf r))))) <> ANSWERING
  /\ stage (session (snd (run (handleBack r (worldOf r))))) = SELECT_TYPE.
Proof.
  destruct (back_moves_where_it_is_offered Sample.answering
              (worldOf Sample.answering) eq_refl) as [Hmove _].
  apply Hmove. reflexivity.
Defined.

(** X3.  Going back keeps the study material, the file, the question type
    and the question count, except from the page range, where the file and
    the material are forgotten and the page bounds reset: the upload screen
    then shows the drop zone with its analyze button disabled and its text
    area read-only. *)
Theorem back_keeps_material_except_from_page_range r w :
  let s' := session (snd (run (handleBack r w))) in
  (stage r <> SELECT_PAGE_RANGE ->
   studyMaterial s' = studyMaterial (session w)
   /\ file s' = file (session w)
   /\ fileName s' = fileName (session w)
   /\ questionType s' = questionType (session w)
   /\ questionCount s' = questionCount (session w))
  /\ (stage r = SELECT_PAGE_RANGE ->
      s' = with_stage UPLOAD
             (with_error None
                (with_endPage 1
                   (with_startPage 1
                      (with_totalPages 0
                         (with_file None
                            (with_fileName EmptyString
                               (with_studyMaterial None (session w))))))))
      /\ showsLoadedFile s' = false
      /\ analyzeDisabled s' = true
      /\ textareaReadOnly s' = true).
Proof.
  cbv zeta. split.
  - intros Hne. unfold handleBack. destruct (stage r); try contradiction;
      run_m; repeat split.
  - intros Hst. unfold handleBack, handleResetUpload. rewrite Hst. run_m.
    split; [reflexivity|].
    unfold showsLoadedFile, analyzeDisabled, textareaReadOnly. cbn.
    rewrite !orb_true_r. repeat split.
Qed.

Lemma back_keeps_material_except_from_page_range_witness :
  let r := Sample.pages3to4 in
  let s' := session (snd (run (handleBack r (worldOf r)))) in
  s' = with_stage UPLOAD initialSession
  /\ showsLoadedFile s' = false
  /\ analyzeDisabled s' = true
  /\ textareaReadOnly s' = true.
Proof.
  destruct (back_keeps_material_except_from_page_range Sample.pages3to4
              (worldOf Sample.pages3to4)) as [_ Hreset].
  apply Hreset. reflexivity.
Defined.

(** ** Starting over *)

(** X4.  Returning to the start does what "generate more" does, except that
    the stage is UPLOAD: study material, file and file name are kept, so
    the upload screen shows the loaded file again; and analyzing from there
    goes to PROCESSING whenever that material is not empty. *)
Theorem return_to_start_keeps_the_file w :
  let s' := session (snd (run (handleReturnToStart w))) in
  s' = with_stage UPLOAD (session (snd (run (handleGenerateMore w))))
  /\ studyMaterial s' = studyMaterial (session w)
  /\ file s' = file (session w)
  /\ fileName s' = fileName (session w)
  /\ forall env,
       truthy_material (studyMaterial (session w)) = true ->
       stage (session (snd (run (handleAnalyze env s'
                                   (snd (run (handleReturnToStart w)))))))
       = PROCESSING.
Proof.
  cbv zeta. unfold handleReturnToStart, handleGenerateMore. run_m.
  repeat split.
  intros env Hm. unfold handleAnalyze.
  cbn [snd session studyMaterial with_stage with_questionCount
         with_questionType with_error with_feedback with_userAnswers
         with_currentQuestionIndex with_questions].
  rewrite Hm. run_m. reflexivity.
Qed.

Lemma return_to_start_keeps_the_file_witness :
  let w := worldOf (with_stage COMPLETED Sample.answering) in
  stage (session (snd (run (handleAnalyze (Sample.env (Rejected "offline"))
                              (session (snd (run (handleReturnToStart w))))
                              (snd (run (handleReturnToStart w)))))))
  = PROCESSING.
Proof.
  destruct (return_to_start_keeps_the_file
              (worldOf (with_stage COMPLETED Sample.answering)))
    as (_ & _ & _ & _ & Hagain).
  apply Hagain. reflexivity.
Defined.

(** ** Generating questions *)

(** X5.  When the generator gives at least one question,
    [handleGenerateQuestions], run to its end, records the list, puts the
    index at 0, empties answers and feedback, clears the error and sets the
    stage to ANSWERING; material, type and count stay. *)
Theorem generation_success_starts_answering env r w ty m q qs :
  questionType r = Some ty ->
  studyMaterial r = Some m ->
  truthy_material (Some m) = true ->
  generateQuestions env m ty (questionCount r) (language env)
  = Resolved (q :: qs) ->
  run (handleGenerateQuestions env r w) =
  (Ok tt,
   mkWorld
     (with_stage ANSWERING
        (with_feedback ∅
           (with_userAnswers ∅
              (with_currentQuestionIndex 0%nat
                 (with_questions (q :: qs)
                    (with_error None
                       (with_stage GENERATING (session w))))))))
     (io w ++ [IoGenerateQuestions m ty (questionCount r) (language env)])
     (timers w)).
Proof.
  intros Hty Hm Htruthy Hgen.
  unfold handleGenerateQuestions. rewrite Hty, Hm, Htruthy, Hgen.
  run_m. reflexivity.
Qed.

Lemma generation_success_starts_answering_witness :
  let r := Sample.counting in
  run (handleGenerateQuestions (Sample.env (Resolved Sample.someQuestions))
         r (worldOf r)) =
  (Ok tt,
   mkWorld
     (with_stage ANSWERING
        (with_feedback ∅
           (with_userAnswers ∅
              (with_currentQuestionIndex 0%nat
                 (with_questions Sample.someQuestions
                    (with_error None (with_stage GENERATING r)))))))
     ([] ++ [IoGenerateQuestions (Text "The heart pumps blood.") TrueFalse 5
               "en"])
     []).
Proof.
  apply (generation_success_starts_answering
           (Sample.env (Resolved Sample.someQuestions)) Sample.counting
           (worldOf Sample.counting) TrueFalse
           (Text "The heart pumps blood.")
           (TrueFalseQuestion "The heart pumps blood." true) []);
    reflexivity.
Defined.

(** ** Selecting and checking an answer *)

(** X6.  [handleAnswerSelect] writes the answer of the current question and
    nothing else: the other answers, the feedback and every other cell are
    as before, also when the question already has feedback; a second
    selection replaces the first. *)
Theorem answer_select_writes_one_answer r w a b :
  let i := currentQuestionIndex r in
  let s' := session (snd (run (handleAnswerSelect r a w))) in
  s' = with_userAnswers (<[i := a]> (userAnswers (session w))) (session w)
  /\ userAnswers s' !! i = Some a
  /\ (forall j, j <> i -> userAnswers s' !! j = userAnswers (session w) !! j)
  /\ feedback s' = feedback (session w)
  /\ snd (run (handleAnswerSelect r b (snd (run (handleAnswerSelect r a w)))))
     = snd (run (handleAnswerSelect r b w)).
Proof.
  cbv zeta. unfold handleAnswerSelect. run_m.
  cbn [snd session userAnswers with_userAnswers feedback].
  repeat split.
  - apply lookup_insert_eq.
  - intros j Hj. now apply lookup_insert_ne.
  - unfold with_userAnswers. cbn. now rewrite insert_insert_eq.
Qed.

(** X7.  On a multiple-choice question, selecting an option and then
    checking gives the "correct" message when the option is the string
    [correctAnswer], and otherwise the "incorrect" message, a space and
    [correctAnswer]. *)
Theorem select_then_check env l q opts correct a :
  let s := session (world l) in
  let i := currentQuestionIndex s in
  questions s !! i = Some q ->
  options q = Some opts ->
  correctAnswer q = Some correct ->
  let l' := runEvents l [ Invoke (fun r => handleAnswerSelect r a);
                          Invoke (handleCheckAnswer env) ] in
  feedback (session (world l')) !! i =
  Some (if String.eqb a correct then t env "correct_feedback"
        else t env "incorrect_feedback" +:+ " " +:+ correct)
  /\ userAnswers (session (world l')) !! i = Some a.
Proof.
  intros s i Hq Ho Hc l'. subst s i l'.
  set (s := session (world l)) in *.
  set (s1 := with_userAnswers
               (<[currentQuestionIndex s := a]> (userAnswers s)) s).
  assert (runEvents l [ Invoke (fun r => handleAnswerSelect r a);
                        Invoke (handleCheckAnswer env) ]
          = settle (suspended l)
              (handleCheckAnswer env s1
                 (mkWorld s1 (io (world l)) (timers (world l))))) as ->
    by reflexivity.
  rewrite (handleCheckAnswer_run env s1 _ q) by exact Hq.
  cbn [settle world session wrote feedback with_feedback userAnswers
         with_userAnswers currentQuestionIndex s1].
  rewrite !lookup_insert_eq. split; [|reflexivity].
  unfold feedbackText. rewrite Ho, Hc. cbn [truthy Js.strict_eq].
  destruct (String.eqb a correct); reflexivity.
Qed.

Lemma select_then_check_witness :
  let l := mkLoop (worldOf Sample.answering) [] in
  let e := Sample.env (Rejected "offline") in
  let l' := runEvents l [ Invoke (fun r => handleAnswerSelect r "Rome");
                          Invoke (handleCheckAnswer e) ] in
  feedback (session (world l')) !! 0%nat =
  Some (if String.eqb "Rome" "Paris" then "correct_feedback"
        else "incorrect_feedback" +:+ " " +:+ "Paris")
  /\ userAnswers (session (world l')) !! 0%nat = Some "Rome".
Proof.
  apply (select_then_check (Sample.env (Rejected "offline"))
           (mkLoop (worldOf Sample.answering) [])
           (MultipleChoiceQuestion "Capital of France?"
              ["Paris"; "Rome"; "Oslo"; "Bern"] "Paris")
           ["Paris"; "Rome"; "Oslo"; "Bern"] "Paris" "Rome");
    reflexivity.
Defined.

(** ** Loading a file, whatever the collaborators answer *)

(** Running on until every awaited promise in sight has been given an
    outcome. *)
Ltac settle_promises :=
  repeat (run_m;
          match goal with
          | |- context [match ?p with Resolved _ => _ | Rejected _ => _ end] =>
              destruct p eqn:?
          end);
  run_m.


(** X9.  A file that is no image, no PDF, not named [.docx] and not plain
    text is refused without being read: the only call out is the console
    message; the parsing-failed error is surfaced on the upload screen and
    the file is forgotten. *)
Theorem unsupported_file_is_refused env r f w :
  Js.startsWith (file_type f) "image/" = false ->
  file_type f <> "application/pdf" ->
  Js.endsWith (file_name f) ".docx" = false ->
  file_type f <> "text/plain" ->
  processFile env r f w =
  Finished (Ok tt)
    (mkWorld
       (with_stage UPLOAD
          (with_isParsing false
             (with_file None
                (with_fileName EmptyString
                   (with_error (Some (t env "error_parsing_failed"))
                      (with_studyMaterial None (session w)))))))
       (io w ++ [IoConsoleError "File processing error:"])
       (timers w)).
Proof.
  intros Himg Hpdf Hdocx Htxt. unfold processFile.
  rewrite Himg, Hdocx.
  rewrite (proj2 (String.eqb_neq _ _) Hpdf), (proj2 (String.eqb_neq _ _) Htxt).
  run_m. destruct w as [s i tms]. destruct s. reflexivity.
Qed.

Lemma unsupported_file_is_refused_witness :
  let f := mkFile "clip.mp4" "video/mp4" [] in
  let r := Sample.uploading in
  processFile (Sample.env (Rejected "offline")) r f (worldOf r) =
  Finished (Ok tt)
    (mkWorld
       (with_stage UPLOAD
          (with_isParsing false
             (with_file None
                (with_fileName EmptyString
                   (with_error (Some "error_parsing_failed")
                      (with_studyMaterial None r))))))
       ([] ++ [IoConsoleError "File processing error:"])
       []).
Proof.
  apply (unsupported_file_is_refused (Sample.env (Rejected "offline"))
           Sample.uploading (mkFile "clip.mp4" "video/mp4" [])
           (worldOf Sample.uploading)).
  - reflexivity.
  - discriminate.
  - reflexivity.
  - discriminate.
Defined.

(** X10.  A file named [.docx] that is neither an image nor a PDF by its
    type is read with the Word extractor, whatever its type says (plain text
    included), and its text becomes the study material.  The analysis then
    starts only if the render in which the file was chosen already had
    study material; otherwise the "no text" error is surfaced and the stage
    stays. *)
Theorem docx_is_read_by_name env r f w buf text :
  Js.startsWith (file_type f) "image/" = false ->
  file_type f <> "application/pdf" ->
  Js.endsWith (file_name f) ".docx" = true ->
  arrayBuffer env f = Resolved buf ->
  extractRawText env buf = Resolved text ->
  let result := run (processFile env r f w) in
  let s' := session (snd result) in
  fst result = Ok tt
  /\ studyMaterial s' = Some (Text text)
  /\ io (snd result) = (io w ++ [IoArrayBuffer f; IoExtractRawText buf])%list
  /\ stage s' =
     (if truthy_material (studyMaterial r) then PROCESSING
      else stage (session w))
  /\ error s' =
     (if truthy_material (studyMaterial r) then None
      else Some (t env "error_no_text")).
Proof.
  intros Himg Hpdf Hdocx Hbuf Htext. cbv zeta.
  unfold processFile, handleAnalyze.
  rewrite Himg, Hdocx, (proj2 (String.eqb_neq _ _) Hpdf), Hbuf.
  destruct (truthy_material (studyMaterial r)); cbn [negb];
    run_m; rewrite Htext; run_m; rewrite <- !app_assoc; repeat split.
Qed.

Lemma docx_is_read_by_name_witness :
  let f := mkFile "essay.docx" "text/plain" [] in
  let r := Sample.uploading in
  let result :=
    run (processFile (Sample.env (Rejected "offline")) r f (worldOf r)) in
  let s' := session (snd result) in
  fst result = Ok tt
  /\ studyMaterial s' = Some (Text "word text")
  /\ io (snd result) = ([] ++ [IoArrayBuffer f; IoExtractRawText []])%list
  /\ stage s' = UPLOAD
  /\ error s' = Some "error_no_text".
Proof.
  apply (docx_is_read_by_name (Sample.env (Rejected "offline"))
           Sample.uploading (mkFile "essay.docx" "text/plain" [])
           (worldOf Sample.uploading) [] "word text");
    first [reflexivity | discriminate].
Defined.

(** ** The data URL *)

Lemma split_without c s : occurs c s = false -> Js.split c s = [s].
Proof.
  induction s as [|a s IH]; cbn; [reflexivity|].
  intros H. apply orb_false_iff in H as [Ha Hs].
  rewrite Ha, (IH Hs). reflexivity.
Qed.

Lemma split_at_first c p rest :
  occurs c p = false ->
  Js.split c (p +:+ String c rest) = p :: Js.split c rest.
Proof.
  induction p as [|a p IH]; intros H.
  - change (EmptyString +:+ String c rest) with (String c rest).
    cbn. now rewrite Ascii.eqb_refl.
  - cbn in H. apply orb_false_iff in H as [Ha Hp].
    change (String a p +:+ String c rest)
      with (String a (p +:+ String c rest)).
    cbn [Js.split]. rewrite Ha, (IH Hp). reflexivity.
Qed.

(** X11.  [fileToBase64] gives the part of the data URL between its first
    and its second comma: the whole payload when header and payload hold no
    comma, as in [data:<type>;base64,<payload>].  A URL without comma gives
    [undefined], and a failed read is thrown to the caller. *)
Theorem fileToBase64_takes_the_payload env f w :
  let logged := mkWorld (session w) (io w ++ [IoReadAsDataURL f]) (timers w) in
  (forall header payload,
     occurs "," header = false ->
     occurs "," payload = false ->
     readAsDataURL env f = Resolved (header +:+ "," +:+ payload) ->
     run (fileToBase64 env f w) = (Ok (Some payload), logged))
  /\ (forall header payload rest,
        occurs "," header = false ->
        occurs "," payload = false ->
        readAsDataURL env f
        = Resolved (header +:+ "," +:+ payload +:+ "," +:+ rest) ->
        run (fileToBase64 env f w) = (Ok (Some payload), logged))
  /\ (forall url,
        occurs "," url = false ->
        readAsDataURL env f = Resolved url ->
        run (fileToBase64 env f w) = (Ok None, logged))
  /\ (forall e,
        readAsDataURL env f = Rejected e ->
        run (fileToBase64 env f w) = (Thrown e, logged)).
Proof.
  cbv zeta. unfold fileToBase64. repeat split.
  - intros header payload Hh Hp ->. run_m.
    change ("," +:+ payload) with (String "," payload).
    rewrite split_at_first, split_without by assumption. reflexivity.
  - intros header payload rest Hh Hp ->. run_m.
    change ("," +:+ payload +:+ "," +:+ rest)
      with (String "," (payload +:+ String "," rest)).
    rewrite !split_at_first by assumption. reflexivity.
  - intros url Hu ->. run_m. rewrite split_without by assumption.
    reflexivity.
  - intros e ->. run_m. reflexivity.
Qed.

Lemma fileToBase64_takes_the_payload_witness :
  run (fileToBase64 (Sample.env (Rejected "offline")) Sample.photo
         (worldOf Sample.uploading))
  = (Ok (Some "QUJD"),
     mkWorld Sample.uploading ([] ++ [IoReadAsDataURL Sample.photo]) []).
Proof.
  destruct (fileToBase64_takes_the_payload (Sample.env (Rejected "offline"))
              Sample.photo (worldOf Sample.uploading)) as [Hpayload _].
  apply (Hpayload "data:image/png;base64" "QUJD"); reflexivity.
Defined.

(** ** The page inputs *)

Lemma page_edit_keeps_bounds env w e :
  isPageEdit e = true ->
  1 <= startPage (session w) ->
  endPage (session w) <= totalPages (session w) ->
  let w' := seqStep env w e in
  totalPages (session w') = totalPages (session w)
  /\ 1 <= startPage (session w')
  /\ endPage (session w') <= totalPages (session w').
Proof.
  intros He Hs Ht. cbv zeta.
  destruct e as [[]|]; try discriminate He; cbn [seqStep];
    destruct (offered _ _); try (repeat split; assumption);
    cbn [handlerOf]; unfold onStartPageChange, onEndPageChange; run_m; cbn;
    repeat split; lia.
Qed.

Lemma confirmDisabled_within_bounds s :
  1 <= startPage s ->
  endPage s <= totalPages s ->
  confirmDisabled s = (startPage s >? endPage s).
Proof.
  intros Hs Ht. unfold confirmDisabled.
  rewrite (proj2 (Z.ltb_ge (startPage s) 1)) by lia.
  rewrite (Z.gtb_ltb (endPage s)), (proj2 (Z.ltb_ge _ _)) by lia.
  now rewrite !orb_false_r.
Qed.

(** X12.  After any sequence of edits of the two page inputs the start page
    is at least 1 and the end page at most the number of pages, which does
    not change: the continue button is then disabled exactly when the start
    page is past the end page. *)
Theorem page_edits_keep_bounds env w es :
  forallb isPageEdit es = true ->
  1 <= startPage (session w) ->
  endPage (session w) <= totalPages (session w) ->
  let s' := session (seqRun env w es) in
  totalPages s' = totalPages (session w)
  /\ 1 <= startPage s'
  /\ endPage s' <= totalPages s'
  /\ confirmDisabled s' = (startPage s' >? endPage s').
Proof.
  revert w. induction es as [|e es IH]; intros w Hes Hs Ht; cbv zeta.
  - cbn. repeat split; try assumption.
    now apply confirmDisabled_within_bounds.
  - cbn in Hes. apply andb_true_iff in Hes as [He Hes].
    destruct (page_edit_keeps_bounds env w e He Hs Ht) as (H1 & H2 & H3).
    cbn [seqRun fold_left].
    change (fold_left (seqStep env) es ?x) with (seqRun env x es).
    specialize (IH (seqStep env w e) Hes H2 H3). cbv zeta in IH.
    rewrite <- H1. exact IH.
Qed.

Lemma page_edits_keep_bounds_witness :
  let w := worldOf (with_endPage 10 (with_startPage 1 Sample.pages3to4)) in
  let s' := session (seqRun (Sample.env (Rejected "offline")) w
                       [Do (EditStartPage (-3)); Do (EditEndPage 0)]) in
  totalPages s' = 10
  /\ 1 <= startPage s'
  /\ endPage s' <= totalPages s'
  /\ confirmDisabled s' = (startPage s' >? endPage s').
Proof.
  apply (page_edits_keep_bounds (Sample.env (Rejected "offline"))
           (worldOf (with_endPage 10 (with_startPage 1 Sample.pages3to4)))
           [Do (EditStartPage (-3)); Do (EditEndPage 0)]).
  - reflexivity.
  - cbn. lia.
  - cbn. lia.
Defined.

(** ** Confirming a page range, whatever the document answers *)

(** The page loop changes neither the session nor the timers, however it
    ends. *)
Lemma extractLoop_frame pdf e n :
  forall i acc w,
    Z.to_nat (e + 1 - i) = n ->
    exists o log,
      run (extractLoop pdf i e acc w) =
      (o, mkWorld (session w) (io w ++ log) (timers w)).
Proof.
  induction n as [|n IH]; intros i acc w Hn;
    rewrite extractLoop_equation_1; unfold extractLoop_unfold_clause_1;
    destruct (Z_le_dec i e) as [Hle|Hgt]; try lia.
  - exists (Ok acc), []. cbn. rewrite app_nil_r. destruct w; reflexivity.
  - run_m. destruct (getPage pdf i) as [[content]|err]; run_m.
    + cbn [getTextContent]. destruct content as [items|err]; run_m.
      * match goal with
        | |- context [run (extractLoop pdf (i + 1) e ?acc' ?w')] =>
            destruct (IH (i + 1) acc' w' ltac:(lia)) as (o & log & ->)
        end.
        cbn [session io timers]. eexists o, _.
        rewrite <- !app_assoc. reflexivity.
      * eexists _, _. rewrite <- !app_assoc. reflexivity.
    + eexists _, _. reflexivity.
Qed.



(** The loop up to a page that cannot be opened. *)
Lemma extractLoop_stops pdf items e j err n :
  forall i acc w,
    Z.to_nat (j - i) = n ->
    i <= j <= e ->
    readable pdf items i (j - 1) ->
    getPage pdf j = Rejected err ->
    run (extractLoop pdf i e acc w) =
    (Thrown err,
     mkWorld (session w) (io w ++ extractIo i (j - 1) ++ [IoGetPage j])
       (timers w)).
Proof.
  induction n as [|n IH]; intros i acc w Hn Hij Hr Hj;
    rewrite extractLoop_equation_1; unfold extractLoop_unfold_clause_1;
    destruct (Z_le_dec i e) as [Hle|Hgt]; try lia.
  - assert (i = j) as -> by lia.
    rewrite Hj, extractIo_empty by lia. run_m. reflexivity.
  - destruct (Hr i ltac:(lia)) as ([content] & Hp & Ht).
    cbn in Ht. subst content.
    rewrite Hp. run_m. cbn [getTextContent]. run_m.
    rewrite (IH (i + 1)); try lia; try assumption.
    + rewrite (extractIo_first i (j - 1)) by lia.
      cbn [session io timers]. rewrite <- !app_assoc. reflexivity.
    + intros k Hk. apply Hr. lia.
Qed.

(** X14.  When a page of the range cannot be opened, the extraction stops
    there: the pages before it have been read, in order, no later page is
    asked for, the text read so far is dropped (the study material is
    untouched), and the session ends on the upload screen with the
    parsing-failed error. *)
Theorem extraction_stops_at_unreadable_page env r w f buf pdf items j err :
  file r = Some f ->
  confirmDisabled r = false ->
  arrayBuffer env f = Resolved buf ->
  getDocument env buf = Resolved pdf ->
  startPage r <= j <= endPage r ->
  readable pdf items (startPage r) (j - 1) ->
  getPage pdf j = Rejected err ->
  run (handleConfirmPageRange env r w) =
  (Ok tt,
   mkWorld
     (with_stage UPLOAD
        (with_error (Some (t env "error_parsing_failed"))
           (with_stage PROCESSING (with_error None (session w)))))
     (io w ++ [IoArrayBuffer f; IoGetDocument buf]
           ++ extractIo (startPage r) (j - 1)
           ++ [IoGetPage j;
               IoConsoleError "Error extracting text from page range:"])
     (timers w)).
Proof.
  intros Hf Hok Hbuf Hpdf Hj Hread Herr. unfold handleConfirmPageRange.
  unfold confirmDisabled in Hok. rewrite Hf, Hok, Hbuf. run_m.
  rewrite Hpdf. run_m. rewrite run_catch, run_bind.
  rewrite (extractLoop_stops pdf items (endPage r) j err _ _ _ _ eq_refl
             Hj Hread Herr).
  run_m. rewrite <- !app_assoc. reflexivity.
Qed.

Lemma extraction_stops_at_unreadable_page_witness :
  let r :=
    with_totalPages 12 (with_endPage 12 (with_startPage 9 Sample.pages3to4)) in
  run (handleConfirmPageRange (Sample.env (Rejected "offline")) r
         (worldOf r)) =
  (Ok tt,
   mkWorld
     (with_stage UPLOAD
        (with_error (Some "error_parsing_failed")
           (with_stage PROCESSING (with_error None r))))
     ([] ++ [IoArrayBuffer Sample.notes; IoGetDocument []]
         ++ extractIo 9 (11 - 1)
         ++ [IoGetPage 11;
             IoConsoleError "Error extracting text from page range:"])
     []).
Proof.
  apply (extraction_stops_at_unreadable_page
           (Sample.env (Rejected "offline"))
           (with_totalPages 12
              (with_endPage 12 (with_startPage 9 Sample.pages3to4)))
           (worldOf
              (with_totalPages 12
                 (with_endPage 12 (with_startPage 9 Sample.pages3to4))))
           Sample.notes [] (Sample.pdfOfPages Sample.tenPages)
           (Scenario.itemsOf Sample.tenPages) 11 "Invalid page request").
  - reflexivity.
  - reflexivity.
  - reflexivity.
  - reflexivity.
  - cbn. lia.
  - intros k Hk. cbn in Hk.
    assert (k = 9 \/ k = 10) as [-> | ->] by lia;
      eexists; split; reflexivity.
  - reflexivity.
Defined.

(** X15.  Whenever the continue button of the page-range screen is offered
    and a file is loaded, [handleConfirmPageRange] passes its own guard: it
    clears the error, sets the stage to PROCESSING and stops at the read of
    the file. *)
Theorem offered_confirm_starts_reading env r w f :
  offered r ClickConfirmPageRange = true ->
  file r = Some f ->
  exists k,
    handleConfirmPageRange env r w =
    Suspended
      (mkWorld (with_stage PROCESSING (with_error None (session w)))
         (io w ++ [IoArrayBuffer f]) (timers w))
      k.
Proof.
  intros Hoff Hf. unfold offered in Hoff.
  assert (confirmDisabled r = false) as Hok.
  { destruct (stage r); try destruct (showsLoadedFile r);
      try discriminate Hoff; now apply negb_true_iff in Hoff. }
  unfold handleConfirmPageRange. unfold confirmDisabled in Hok.
  rewrite Hf, Hok. run_m. eexists. reflexivity.
Qed.

Lemma offered_confirm_starts_reading_witness :
  let r := Sample.pages3to4 in
  exists k,
    handleConfirmPageRange (Sample.env (Rejected "offline")) r (worldOf r) =
    Suspended
      (mkWorld (with_stage PROCESSING (with_error None r))
         ([] ++ [IoArrayBuffer Sample.notes]) [])
      k.
Proof.
  apply (offered_confirm_starts_reading (Sample.env (Rejected "offline"))
           Sample.pages3to4 (worldOf Sample.pages3to4) Sample.notes);
    reflexivity.
Defined.

(** ** The quiz cells stay consistent in the event loop *)

Lemma quizConsistent_frame s s' :
  questions s' = questions s ->
  userAnswers s' = userAnswers s ->
  feedback s' = feedback s ->
  currentQuestionIndex s' = currentQuestionIndex s ->
  (stage s' = ANSWERING -> stage s = ANSWERING) ->
  quizConsistent s -> quizConsistent s'.
Proof.
  intros Hq Hu Hf Hi Hst [Hkeys Hcur]. unfold quizConsistent.
  rewrite Hq, Hu, Hf, Hi. split; [exact Hkeys | auto].
Qed.

Lemma quizConsistent_cleared (s' : Session) :
  userAnswers s' = ∅ ->
  feedback s' = ∅ ->
  (stage s' = ANSWERING ->
   (currentQuestionIndex s' < length (questions s'))%nat) ->
  quizConsistent s'.
Proof.
  intros Hu Hf Hcur. split; [|exact Hcur].
  intros i. rewrite Hu, Hf, !lookup_empty. intros [[x Hx]|[x Hx]];
    discriminate.
Qed.

(** Closing a goal on the consistency of a session built from a consistent
    one by writes that leave the quiz cells alone. *)
Ltac frame_quiz :=
  match goal with
  | H : quizConsistent ?s |- quizConsistent _ =>
      apply (quizConsistent_frame s); [reflexivity..| |exact H];
      cbn; first [discriminate | congruence | tauto]
  end.

Lemma timer_callback_consistent s :
  quizConsistent s -> quizConsistent (with_stage SELECT_TYPE s).
Proof. intros H. frame_quiz. Qed.

Lemma keeps_bind {A B} (s : Step A) (f : A -> M B) :
  keepsConsistent s ->
  (forall a w, worldConsistent w -> keepsConsistent (f a w)) ->
  keepsConsistent (bind_step s f).
Proof.
  intros Hs Hf. induction s as [[a|e] w|w k IH]; cbn in *.
  - now apply Hf.
  - exact Hs.
  - destruct Hs as [Hw Hk]. split; [exact Hw|].
    intros w' Hw'. apply IH, Hk, Hw'.
Qed.

Lemma keeps_catch {A} (s : Step A) (h : JsError -> M A) :
  keepsConsistent s ->
  (forall e w, worldConsistent w -> keepsConsistent (h e w)) ->
  keepsConsistent (catch_step s h).
Proof.
  intros Hs Hh. induction s as [[a|e] w|w k IH]; cbn in *.
  - exact Hs.
  - now apply Hh.
  - destruct Hs as [Hw Hk]. split; [exact Hw|].
    intros w' Hw'. apply IH, Hk, Hw'.
Qed.

(** A world whose session differs from a consistent one outside the quiz
    cells, with the same timers or one more analysis timer. *)
Ltac frame_world :=
  match goal with
  | H : worldConsistent ?w |- worldConsistent _ =>
      let Hs := fresh "Hs" in
      let Ht := fresh "Ht" in
      pose proof H as [Hs Ht]; split;
      [ cbn [session]; try frame_quiz
      | cbn [timers]; try exact Ht;
        try (apply Forall_app; split; [exact Ht|];
             apply Forall_singleton; exact timer_callback_consistent) ]
  end.

(** Stepping through a computation whose writes leave the quiz cells
    alone. *)
Ltac keeps_step :=
  first
    [ progress (cbn [keepsConsistent bind_step catch_step])
    | match goal with
      | |- _ /\ _ => split
      | |- forall _, _ => intros
      | |- context [match ?p with Resolved _ => _ | Rejected _ => _ end] =>
          destruct p
      | |- worldConsistent _ => solve [assumption | frame_world]
      end ].

Ltac keeps_all := unfold_m; repeat keeps_step.

Lemma handleAnalyze_keeps env r w :
  worldConsistent w -> keepsConsistent (handleAnalyze env r w).
Proof.
  intros Hw. unfold handleAnalyze.
  destruct (truthy_material (studyMaterial r)); cbn [negb]; keeps_all.
Qed.

Lemma processFile_keeps env r f w :
  worldConsistent w -> keepsConsistent (processFile env r f w).
Proof.
  intros Hw. unfold processFile, fileToBase64, handleAnalyze.
  destruct (Js.startsWith (file_type f) "image/");
    [|destruct (String.eqb (file_type f) "application/pdf");
      [|destruct (Js.endsWith (file_name f) ".docx");
        [|destruct (String.eqb (file_type f) "text/plain")]]];
    destruct (truthy_material (studyMaterial r)); cbn [negb]; keeps_all.
Qed.

Lemma extractLoop_keeps pdf e n :
  forall i acc w,
    Z.to_nat (e + 1 - i) = n ->
    worldConsistent w ->
    keepsConsistent (extractLoop pdf i e acc w).
Proof.
  induction n as [|n IH]; intros i acc w Hn Hw;
    rewrite extractLoop_equation_1; unfold extractLoop_unfold_clause_1;
    destruct (Z_le_dec i e) as [Hle|Hgt]; try lia.
  - exact Hw.
  - unfold_m. cbn [bind_step keepsConsistent]. split; [frame_world|].
    intros w1 Hw1. destruct (getPage pdf i) as [page|err];
      cbn [bind_step keepsConsistent]; [|exact Hw1].
    split; [frame_world|]. intros w2 Hw2.
    destruct (getTextContent page) as [items|err];
      cbn [bind_step keepsConsistent]; [|exact Hw2].
    apply IH; [lia | exact Hw2].
Qed.

Lemma handleConfirmPageRange_keeps env r w :
  worldConsistent w -> keepsConsistent (handleConfirmPageRange env r w).
Proof.
  intros Hw. unfold handleConfirmPageRange.
  destruct (file r) as [f|]; [|keeps_all].
  destruct (_ || _); [keeps_all|].
  unfold_m. cbn [bind_step catch_step keepsConsistent].
  split; [frame_world|]. intros w1 Hw1.
  destruct (arrayBuffer env f) as [buf|err];
    cbn [bind_step catch_step keepsConsistent]; [|frame_world].
  split; [frame_world|]. intros w2 Hw2.
  destruct (getDocument env buf) as [pdf|err];
    cbn [bind_step catch_step keepsConsistent]; [|frame_world].
  apply keeps_catch.
  - apply keeps_bind.
    + apply (extractLoop_keeps pdf (endPage r) _ _ _ _ eq_refl Hw2).
    + intros text w3 Hw3. cbn [bind_step keepsConsistent]. frame_world.
  - intros err w3 Hw3. cbn [bind_step keepsConsistent]. frame_world.
Qed.

Lemma handleGenerateQuestions_keeps env r w :
  worldConsistent w -> keepsConsistent (handleGenerateQuestions env r w).
Proof.
  intros Hw. unfold handleGenerateQuestions.
  destruct (questionType r) as [ty|]; [|exact Hw].
  destruct (studyMaterial r) as [m|]; [|exact Hw].
  destruct (negb _); [exact Hw|].
  unfold_m. cbn [bind_step catch_step keepsConsistent].
  split; [frame_world|]. intros w1 Hw1.
  destruct (generateQuestions env m ty (questionCount r) (language env))
    as [[|q qs]|err]; cbn [length Nat.eqb bind_step catch_step keepsConsistent].
  - frame_world.
  - destruct Hw1 as [Hs Ht]. split; [|exact Ht].
    apply quizConsistent_cleared; try reflexivity. cbn. lia.
  - frame_world.
Qed.

Lemma current_question_bound (s : Session) q :
  questions s !! currentQuestionIndex s = Some q ->
  (currentQuestionIndex s < length (questions s))%nat.
Proof. apply lookup_lt_Some. Qed.

Lemma quizConsistent_insert_answer s a :
  (currentQuestionIndex s < length (questions s))%nat ->
  quizConsistent s ->
  quizConsistent
    (with_userAnswers (<[currentQuestionIndex s := a]> (userAnswers s)) s).
Proof.
  intros Hlt [Hkeys Hcur]. split; [|exact Hcur].
  intros i. cbn. destruct (decide (i = currentQuestionIndex s)) as [->|Hne].
  - intros _. exact Hlt.
  - rewrite lookup_insert_ne by congruence. apply Hkeys.
Qed.

Lemma quizConsistent_insert_feedback s v :
  (currentQuestionIndex s < length (questions s))%nat ->
  quizConsistent s ->
  quizConsistent
    (with_feedback (<[currentQuestionIndex s := v]> (feedback s)) s).
Proof.
  intros Hlt [Hkeys Hcur]. split; [|exact Hcur].
  intros i. cbn. destruct (decide (i = currentQuestionIndex s)) as [->|Hne].
  - intros _. exact Hlt.
  - rewrite lookup_insert_ne by congruence. apply Hkeys.
Qed.

(** Every handler a screen offers keeps the world consistent, called in the
    render of the session as it is. *)
Lemma offered_handler_keeps env a w :
  worldConsistent w ->
  offered (session w) a = true ->
  keepsConsistent (handlerOf env a (session w) w).
Proof.
  intros Hw Hoff. pose proof Hw as [Hs Ht].
  destruct a; cbn [handlerOf].
  - (* DismissError *) unfold onDismissError. keeps_all.
  - (* ClickWelcomeUpload *) unfold onWelcomeUpload. keeps_all.
  - (* ChooseFiles *) unfold handleFileChange.
    destruct (files !! 0%nat); [now apply processFile_keeps | exact Hw].
  - (* DropFiles *) unfold handleDrop. unfold_m. cbn [bind_step].
    destruct (files !! 0%nat).
    + apply processFile_keeps. frame_world.
    + cbn. frame_world.
  - unfold handleDragOver. keeps_all.
  - unfold handleDragLeave. keeps_all.
  - (* TypeText *) unfold onTextareaChange.
    destruct (negb _); keeps_all.
  - now apply handleAnalyze_keeps.
  - unfold handleResetUpload. keeps_all.
  - (* ClickBack *) unfold handleBack, handleResetUpload.
    destruct (stage (session w)) eqn:Est; unfold_m;
      cbn [bind_step keepsConsistent];
      first [ solve [frame_world]
            | (split; [|exact Ht]); apply quizConsistent_cleared;
              try reflexivity; cbn; discriminate ].
  - unfold onStartPageChange. keeps_all.
  - unfold onEndPageChange. keeps_all.
  - now apply handleConfirmPageRange_keeps.
  - (* ClickType *) unfold handleSelectType. keeps_all.
  - unfold onQuestionCountChange. keeps_all.
  - now apply handleGenerateQuestions_keeps.
  - (* ClickAnswer *)
    assert (currentQuestionIndex (session w)
            < length (questions (session w)))%nat as Hlt.
    { unfold offered, answerOffered in Hoff.
      destruct (stage (session w)); try destruct (showsLoadedFile _);
        try discriminate Hoff.
      destruct (questions (session w) !! _) as [q|] eqn:Hq;
        [|discriminate Hoff].
      exact (current_question_bound _ _ Hq). }
    unfold handleAnswerSelect. unfold_m. cbn [keepsConsistent].
    split; [|exact Ht]. now apply quizConsistent_insert_answer.
  - (* ClickCheck *)
    unfold handleCheckAnswer.
    destruct (questions (session w) !! _) as [q|] eqn:Hq; [|exact Hw].
    pose proof (current_question_bound _ _ Hq) as Hlt.
    match goal with
    | |- context [let '(_, _) := ?c in _] => destruct c as [[] text]
    end; unfold_m; cbn [keepsConsistent]; (split; [|exact Ht]);
      now apply quizConsistent_insert_feedback.
  - (* ClickNext *)
    unfold handleNextQuestion.
    destruct (_ <? _) eqn:Hnext; unfold_m; cbn [keepsConsistent];
      (split; [|exact Ht]).
    + destruct Hs as [Hkeys Hcur]. split; [exact Hkeys|].
      intros _. cbn. apply Z.ltb_lt in Hnext. lia.
    + frame_quiz.
  - (* ClickGenerateMore *) unfold handleGenerateMore. unfold_m.
    cbn [bind_step keepsConsistent]. split; [|exact Ht].
    apply quizConsistent_cleared; try reflexivity. cbn. discriminate.
  - (* ClickReturnToStart *) unfold handleReturnToStart. unfold_m.
    cbn [bind_step keepsConsistent]. split; [|exact Ht].
    apply quizConsistent_cleared; try reflexivity. cbn. discriminate.
Qed.

Lemma settle_consistent rest (s : Step unit) :
  Forall (fun k => forall w, worldConsistent w -> keepsConsistent (k w)) rest ->
  keepsConsistent s ->
  loopConsistent (settle rest s).
Proof.
  intros Hrest Hs. destruct s as [o w|w k]; cbn in *.
  - split; assumption.
  - destruct Hs as [Hw Hk]. split; [exact Hw|].
    apply Forall_app. split; [exact Hrest|]. now apply Forall_singleton.
Qed.

Lemma uiStep_consistent env l e :
  loopConsistent l -> loopConsistent (uiStep env l e).
Proof.
  intros [Hw Hks]. destruct e as [a|n|n]; cbn [uiStep].
  - destruct (offered _ _) eqn:Hoff; [|split; assumption].
    cbn [step]. apply settle_consistent; [exact Hks|].
    now apply offered_handler_keeps.
  - cbn [step]. destruct (suspended l !! n) as [k|] eqn:Hk;
      [|split; assumption].
    apply settle_consistent.
    + now apply Forall_delete.
    + rewrite Forall_lookup in Hks. exact (Hks n k Hk _ Hw).
  - cbn [step]. destruct (timers (world l) !! n) as [tm|] eqn:Htm;
      [|split; assumption].
    destruct Hw as [Hs Ht]. split; [|exact Hks].
    split; cbn.
    + rewrite Forall_lookup in Ht. exact (Ht n tm Htm _ Hs).
    + now apply Forall_delete.
Qed.

Lemma initialLoop_consistent : loopConsistent initialLoop.
Proof.
  repeat split; try constructor.
  - intros i. cbn. rewrite !lookup_empty. intros [[x Hx]|[x Hx]]; discriminate.
  - cbn. discriminate.
Qed.

(** X16.  In every state the event loop can reach from the initial session
    through actions the screens offer, settled promises and elapsed timers,
    in any order, answers and feedback are recorded only for questions of
    the list, and the answering screen has a current question:
    [questions[currentQuestionIndex]], which [renderAnswering] reads, is
    defined. *)
Theorem answering_has_a_current_question env es :
  let s := session (world (uiRun env initialLoop es)) in
  quizConsistent s
  /\ (stage s = ANSWERING ->
      is_Some (questions s !! currentQuestionIndex s)).
Proof.
  cbv zeta.
  assert (loopConsistent (uiRun env initialLoop es)) as [[Hs _] _].
  { unfold uiRun. generalize initialLoop_consistent.
    generalize initialLoop. induction es as [|e es IH]; intros l Hl.
    - exact Hl.
    - cbn [fold_left]. apply IH. now apply uiStep_consistent. }
  split; [exact Hs|]. intros Hst. apply lookup_lt_is_Some.
  destruct Hs as [_ Hcur]. exact (Hcur Hst).
Qed.

(** ** The text area *)

Lemma named_timer s :
  textHasFileName s -> textHasFileName (with_stage SELECT_TYPE s).
Proof. intros H. exact H. Qed.

(** Closing a goal on a world computed from a named one. *)
Ltac solve_named :=
  match goal with
  | H : worldNamed ?w |- worldNamed _ =>
      let HJ := fresh "HJ" in
      let HL := fresh "HL" in
      let Ht := fresh "Ht" in
      pose proof H as [[HJ HL] Ht]; split;
      [ split; cbn; intros; first [assumption | congruence | auto]
      | cbn [timers]; first
          [ exact Ht
          | apply Forall_app; split; [exact Ht|];
            apply Forall_singleton; exact named_timer ] ]
  end.

Lemma processFile_named env r f w :
  file_name f <> EmptyString ->
  worldNamed w ->
  worldNamed (snd (run (processFile env r f w))).
Proof.
  intros Hn Hw. unfold processFile, fileToBase64, handleAnalyze.
  destruct (Js.startsWith (file_type f) "image/");
    [|destruct (String.eqb (file_type f) "application/pdf");
      [|destruct (Js.endsWith (file_name f) ".docx");
        [|destruct (String.eqb (file_type f) "text/plain")]]];
    destruct (truthy_material (studyMaterial r)); cbn [negb];
    settle_promises; cbn [snd]; solve_named.
Qed.

Lemma handleConfirmPageRange_named env w :
  worldNamed w ->
  worldNamed (snd (run (handleConfirmPageRange env (session w) w))).
Proof.
  intros Hw. unfold handleConfirmPageRange.
  destruct (file (session w)) as [f|] eqn:Hf; [|run_m; solve_named].
  destruct (_ || _); [run_m; solve_named|].
  run_m. destruct (arrayBuffer env f) as [buf|err]; run_m; [|solve_named].
  destruct (getDocument env buf) as [pdf|err]; run_m; [|solve_named].
  rewrite run_catch, run_bind.
  match goal with
  | |- context [run (extractLoop pdf ?i ?e ?acc ?w')] =>
      destruct (extractLoop_frame pdf e _ i acc w' eq_refl) as (o & log & ->)
  end.
  destruct o as [text|err]; run_m; cbn [snd]; [|solve_named].
  destruct Hw as [[HJ HL] Ht]. split; [|exact Ht].
  split; cbn; intros; apply HL; congruence.
Qed.

Lemma handleGenerateQuestions_named env r w :
  worldNamed w ->
  worldNamed (snd (run (handleGenerateQuestions env r w))).
Proof.
  intros Hw. unfold handleGenerateQuestions.
  destruct (questionType r) as [ty|]; [|exact Hw].
  destruct (studyMaterial r) as [m|]; [|exact Hw].
  destruct (negb _); [exact Hw|].
  run_m.
  destruct (generateQuestions env m ty (questionCount r) (language env))
    as [[|q qs]|err]; run_m; cbn [snd]; solve_named.
Qed.

Lemma offered_handler_named env a w :
  worldNamed w ->
  offered (session w) a = true ->
  filesNamed (Do a) = true ->
  worldNamed (snd (run (handlerOf env a (session w) w))).
Proof.
  intros Hw Hoff Hfiles.
  destruct a; cbn [handlerOf].
  - unfold onDismissError. run_m. solve_named.
  - unfold onWelcomeUpload. run_m. solve_named.
  - (* ChooseFiles *) unfold handleFileChange.
    destruct files as [|f rest]; [exact Hw|]. cbn [lookup list_lookup].
    apply processFile_named; [|exact Hw].
    cbn in Hfiles. apply andb_true_iff in Hfiles as [Hf _].
    apply negb_true_iff, String.eqb_neq in Hf. exact Hf.
  - (* DropFiles *) unfold handleDrop.
    destruct files as [|f rest]; [run_m; solve_named|].
    cbn [lookup list_lookup]. run_m.
    apply processFile_named; [|solve_named].
    cbn in Hfiles. apply andb_true_iff in Hfiles as [Hf _].
    apply negb_true_iff, String.eqb_neq in Hf. exact Hf.
  - unfold handleDragOver. run_m. solve_named.
  - unfold handleDragLeave. run_m. solve_named.
  - (* TypeText: not offered when the text comes with a file name *)
    exfalso. destruct Hw as [[HJ HL] _].
    unfold offered, showsLoadedFile, textareaReadOnly in Hoff.
    destruct (stage (session w)); try discriminate Hoff.
    destruct (String.eqb_spec (fileName (session w)) EmptyString)
      as [Hname|Hname];
      destruct (isParsing (session w)); cbn in Hoff;
      try discriminate Hoff.
    apply negb_true_iff, negb_false_iff in Hoff. exact (HJ Hoff Hname).
  - (* ClickAnalyze *) unfold handleAnalyze.
    destruct (negb _); run_m; solve_named.
  - unfold handleResetUpload. run_m. solve_named.
  - (* ClickBack *) unfold handleBack, handleResetUpload.
    destruct (stage (session w)); run_m; solve_named.
  - unfold onStartPageChange. run_m. solve_named.
  - unfold onEndPageChange. run_m. solve_named.
  - now apply handleConfirmPageRange_named.
  - unfold handleSelectType. run_m. solve_named.
  - unfold onQuestionCountChange. run_m. solve_named.
  - now apply handleGenerateQuestions_named.
  - unfold handleAnswerSelect. run_m. solve_named.
  - (* ClickCheck *) unfold handleCheckAnswer.
    destruct (questions (session w) !! _) as [q|]; [|exact Hw].
    match goal with
    | |- context [let '(_, _) := ?c in _] => destruct c as [[] text]
    end; run_m; solve_named.
  - unfold handleNextQuestion. destruct (_ <? _); run_m; solve_named.
  - unfold handleGenerateMore. run_m. solve_named.
  - unfold handleReturnToStart. run_m. solve_named.
Qed.

Lemma seqStep_named env w e :
  worldNamed w -> filesNamed e = true -> worldNamed (seqStep env w e).
Proof.
  intros Hw Hfiles. destruct e as [a|n]; cbn [seqStep].
  - destruct (offered (session w) a) eqn:Hoff; [|exact Hw].
    now apply offered_handler_named.
  - destruct (timers w !! n) as [tm|] eqn:Htm; [|exact Hw].
    destruct Hw as [Hs Ht]. split; cbn.
    + rewrite Forall_lookup in Ht. exact (Ht n tm Htm _ Hs).
    + now apply Forall_delete.
Qed.

(** X17.  As long as one thing happens at a time (every handler runs to its
    end before the next action or timer) and the files chosen or dropped
    have names, the text area of the upload screen never takes input: in
    every session reached from the initial one it is hidden or read-only,
    because study material that is a text always comes with a loaded
    file. *)
Theorem text_area_never_takes_input env es value :
  forallb filesNamed es = true ->
  let s := session (seqRun env (worldOf initialSession) es) in
  textHasFileName s /\ offered s (TypeText value) = false.
Proof.
  intros Hes. cbv zeta.
  assert (worldNamed (seqRun env (worldOf initialSession) es)) as Hw.
  { unfold seqRun.
    assert (worldNamed (worldOf initialSession)) as H0.
    { split; [split; cbn; intros; congruence | constructor]. }
    revert H0 Hes. generalize (worldOf initialSession).
    induction es as [|e es IH]; intros w Hw Hes; [exact Hw|].
    cbn in Hes. apply andb_true_iff in Hes as [He Hes].
    cbn [fold_left]. apply IH; [|exact Hes]. now apply seqStep_named. }
  destruct Hw as [[HJ HL] _]. split; [split; assumption|].
  set (s := session (seqRun env (worldOf initialSession) es)) in *.
  destruct (offered s (TypeText value)) eqn:Hoff; [exfalso|reflexivity].
  unfold offered, showsLoadedFile, textareaReadOnly in Hoff.
  destruct (stage s); try discriminate Hoff.
  destruct (String.eqb_spec (fileName s) EmptyString) as [Hname|Hname];
    destruct (isParsing s); cbn in Hoff; try discriminate Hoff.
  apply negb_true_iff, negb_false_iff in Hoff. exact (HJ Hoff Hname).
Qed.

Lemma text_area_never_takes_input_witness :
  let e := Sample.env (Resolved Sample.someQuestions) in
  let s := session (seqRun e (worldOf initialSession)
                      [ Do ClickWelcomeUpload;
                        Do (DropFiles [Sample.notes]);
                        Do ClickConfirmPageRange;
                        Do ClickBack ]) in
  textHasFileName s /\ offered s (TypeText "Anatomy") = false.
Proof.
  apply (text_area_never_takes_input
           (Sample.env (Resolved Sample.someQuestions))
           [ Do ClickWelcomeUpload;
             Do (DropFiles [Sample.notes]);
             Do ClickConfirmPageRange;
             Do ClickBack ] "Anatomy").
  reflexivity.
Defined.

(** ** A late timer, through the screens only *)

(** Reading cells of a session written with the updaters. *)
Ltac cells :=
  cbn [world suspended session io timers
       stage studyMaterial questionType questionCount questions
       currentQuestionIndex userAnswers feedback error isParsing isDragOver
       fileName file totalPages startPage endPage
       with_stage with_studyMaterial with_questionType with_questionCount
       with_questions with_currentQuestionIndex with_userAnswers
       with_feedback with_error with_isParsing with_isDragOver with_fileName
       with_file with_totalPages with_startPage with_endPage].

(** The two steps in which [processFile] opens a PDF. *)
Lemma processFile_pdf_steps env r f w buf pdf :
  file_type f = "application/pdf" ->
  arrayBuffer env f = Resolved buf ->
  getDocument env buf = Resolved pdf ->
  exists k1 k2,
    processFile env r f w =
    Suspended
      (mkWorld
         (with_file (Some f)
            (with_studyMaterial None
               (with_error None
                  (with_fileName (file_name f)
                     (with_isParsing true (session w))))))
         (io w ++ [IoArrayBuffer f]) (timers w))
      k1
    /\ (forall w1,
          k1 w1 =
          Suspended
            (mkWorld (session w1) (io w1 ++ [IoGetDocument buf]) (timers w1))
            k2)
    /\ (forall w2,
          k2 w2 =
          Finished (Ok tt)
            (mkWorld
               (with_isParsing false
                  (with_stage SELECT_PAGE_RANGE
                     (with_endPage (numPages pdf)
                        (with_startPage 1
                           (with_totalPages (numPages pdf) (session w2))))))
               (io w2) (timers w2))).
Proof.
  intros Hty Hbuf Hdoc. unfold processFile. rewrite Hty.
  cbn [Js.startsWith String.prefix String.eqb Ascii.eqb Bool.eqb].
  rewrite Hbuf. run_m. eexists _, _. split; [reflexivity|]. split.
  - intros w1. cbn beta. rewrite Hdoc. run_m. reflexivity.
  - intros w2. reflexivity.
Qed.

(** The step in which [processFile] reads an image, in a render without
    study material. *)
Lemma processFile_image_steps env r f w url :
  Js.startsWith (file_type f) "image/" = true ->
  readAsDataURL env f = Resolved url ->
  truthy_material (studyMaterial r) = false ->
  exists k,
    processFile env r f w =
    Suspended
      (mkWorld
         (with_file (Some f)
            (with_studyMaterial None
               (with_error None
                  (with_fileName (file_name f)
                     (with_isParsing true (session w))))))
         (io w ++ [IoReadAsDataURL f]) (timers w))
      k
    /\ (forall w1,
          k w1 =
          Finished (Ok tt)
            (mkWorld
               (with_error (Some (t env "error_no_text"))
                  (with_isParsing false
                     (with_studyMaterial
                        (Some (Image {| data := Js.split "," url !! 1%nat;
                                        mimeType := file_type f |}))
                        (session w1))))
               (io w1) (timers w1))).
Proof.
  intros Himg Hurl Hm. unfold processFile, fileToBase64, handleAnalyze.
  rewrite Himg, Hurl, Hm. run_m. eexists. split; [reflexivity|].
  intros w1. reflexivity.
Qed.

Ltac cells_in H :=
  cbn [world suspended session io timers
       stage studyMaterial questionType questionCount questions
       currentQuestionIndex userAnswers feedback error isParsing isDragOver
       fileName file totalPages startPage endPage
       with_stage with_studyMaterial with_questionType with_questionCount
       with_questions with_currentQuestionIndex with_userAnswers
       with_feedback with_error with_isParsing with_isDragOver with_fileName
       with_file with_totalPages with_startPage with_endPage] in H.

Lemma uiStep_act env l a :
  offered (session (world l)) a = true ->
  uiStep env l (Act a) =
  settle (suspended l) (handlerOf env a (session (world l)) (world l)).
Proof. intros H. cbn [uiStep]. rewrite H. reflexivity. Qed.

Lemma uiStep_settle env w ks n k :
  ks !! n = Some k ->
  uiStep env (mkLoop w ks) (Settle n) = settle (delete n ks) (k w).
Proof. intros H. cbn [uiStep step suspended world]. rewrite H. reflexivity. Qed.

Lemma uiStep_elapse env w ks tm :
  timers w = [tm] ->
  uiStep env (mkLoop w ks) (Elapse 0) =
  mkLoop (mkWorld (callback tm (session w)) (io w) []) ks.
Proof.
  intros H. cbn [uiStep step suspended world]. rewrite H. reflexivity.
Qed.

Lemma handleDrop_first env r f rest w :
  handleDrop env r (f :: rest) w =
  processFile env r f
    (mkWorld (with_isDragOver false (session w)) (io w) (timers w)).
Proof. reflexivity. Qed.

Lemma handleAnalyze_starts env r w :
  truthy_material (studyMaterial r) = true ->
  handleAnalyze env r w =
  Finished (Ok tt)
    (mkWorld (with_stage PROCESSING (with_error None (session w))) (io w)
       (timers w ++ [mkTimer (with_stage SELECT_TYPE) 1500])).
Proof. intros H. unfold handleAnalyze. rewrite H. reflexivity. Qed.

(** X18.  Using only what the screens offer, a session can leave PROCESSING
    while the analysis timer is pending, and the timer then moves it on: if
    a PDF is dropped and, while it is being opened, an image, then after
    the image is read and analyze is pressed the PDF opens and the stage is
    SELECT_PAGE_RANGE; when the timer elapses the stage becomes SELECT_TYPE,
    with the page range never confirmed. *)
Theorem late_timer_with_offered_actions env pdfFile image url buf pdf :
  file_type pdfFile = "application/pdf" ->
  Js.startsWith (file_type image) "image/" = true ->
  readAsDataURL env image = Resolved url ->
  arrayBuffer env pdfFile = Resolved buf ->
  getDocument env buf = Resolved pdf ->
  let es := overlappingLoads pdfFile image in
  let before := uiRun env initialLoop es in
  let after := uiStep env before (Elapse 0) in
  allOffered env initialLoop (es ++ [Elapse 0]) = true
  /\ stage (session (world before)) = SELECT_PAGE_RANGE
  /\ stage (session (world after)) = SELECT_TYPE
  /\ studyMaterial (session (world after)) =
     Some (Image {| data := Js.split "," url !! 1%nat;
                    mimeType := file_type image |}).
Proof.
  intros Hpdf Himg Hurl Hbuf Hdoc.
  cbv zeta. unfold overlappingLoads, uiRun.
  cbn [app allOffered fold_left].
  (* the welcome button *)
  rewrite (uiStep_act env initialLoop ClickWelcomeUpload eq_refl).
  cbn [handlerOf]. unfold onWelcomeUpload, initialLoop. run_m.
  cbn [settle world suspended session]. cells. cbn [initialSession].
  (* the PDF is dropped *)
  rewrite uiStep_act by reflexivity.
  cbn [handlerOf world suspended]. rewrite handleDrop_first. cells.
  match goal with
  | |- context [processFile env ?r pdfFile ?w] =>
      destruct (processFile_pdf_steps env r pdfFile w buf pdf Hpdf Hbuf Hdoc)
        as (k1 & k2 & -> & Hk1 & Hk2)
  end.
  cbn [settle app]. cells.
  (* the image is dropped *)
  match goal with
  | |- context [uiStep env (mkLoop ?w [k1]) (Act (DropFiles [image]))] =>
      assert (offered (session w) (DropFiles [image]) = true) as Hoff2
        by (unfold offered, showsLoadedFile; cells; now rewrite andb_false_r);
      rewrite (uiStep_act env (mkLoop w [k1]) _ Hoff2);
      cells_in Hoff2; rewrite Hoff2
  end.
  cbn [handlerOf world suspended]. rewrite handleDrop_first. cells.
  match goal with
  | |- context [processFile env ?r image ?w] =>
      destruct (processFile_image_steps env r image w url Himg Hurl eq_refl)
        as (k3 & -> & Hk3)
  end.
  cbn [settle app]. cells.
  (* the image is read *)
  rewrite (uiStep_settle env _ [k1; k3] 1 k3 eq_refl).
  rewrite Hk3. cbn [delete list_delete settle]. cells.
  (* analyze is pressed *)
  match goal with
  | |- context [uiStep env (mkLoop ?w [k1]) (Act ClickAnalyze)] =>
      assert (offered (session w) ClickAnalyze = true) as Hoff4
        by (unfold offered, showsLoadedFile, analyzeDisabled; cells;
            cbn [truthy_material negb andb orb];
            destruct (negb (String.eqb (file_name image) EmptyString));
            reflexivity);
      rewrite (uiStep_act env (mkLoop w [k1]) _ Hoff4);
      cells_in Hoff4; rewrite Hoff4
  end.
  cbn [handlerOf world suspended]. cells.
  rewrite handleAnalyze_starts by reflexivity.
  cbn [settle app]. cells.
  (* the PDF opens *)
  rewrite (uiStep_settle env _ [k1] 0 k1 eq_refl).
  rewrite Hk1. cbn [delete list_delete settle app]. cells.
  rewrite (uiStep_settle env _ [k2] 0 k2 eq_refl).
  rewrite Hk2. cbn [delete list_delete settle app]. cells.
  (* the timer elapses *)
  rewrite (uiStep_elapse env _ _ (mkTimer (with_stage SELECT_TYPE) 1500))
    by reflexivity.
  cells. cbn [length callback]. cells.
  repeat split.
Qed.

Lemma late_timer_with_offered_actions_witness :
  let env := Sample.env (Rejected "offline") in
  let es := overlappingLoads Sample.notes Sample.photo in
  let before := uiRun env initialLoop es in
  let after := uiStep env before (Elapse 0) in
  allOffered env initialLoop (es ++ [Elapse 0]) = true
  /\ stage (session (world before)) = SELECT_PAGE_RANGE
  /\ stage (session (world after)) = SELECT_TYPE
  /\ studyMaterial (session (world after)) =
     Some (Image {| data := Js.split "," "data:image/png;base64,QUJD"
                            !! 1%nat;
                    mimeType := "image/png" |}).
Proof.
  apply (late_timer_with_offered_actions (Sample.env (Rejected "offline"))
           Sample.notes Sample.photo "data:image/png;base64,QUJD" []
           (Sample.pdfOfPages Sample.tenPages));
    reflexivity.
Defined.

(** ** The generator service *)

(** X19.  With an API key set, the service resolves exactly when the client
    answers with a text that, trimmed, parses to a JSON array, and then
    with that array as it is, empty or not; every other outcome (the call
    fails, the response has no text, the text is not JSON, the value is not
    an array) is rejected with one and the same message. *)
Theorem service_resolves_on_an_array api m ty count lang :
  truthy_string (Gemini.API_KEY api) = true ->
  let result := Gemini.generateQuestions api m ty count lang in
  (forall qs,
     result = Resolved qs <->
     exists text,
       Gemini.generateContent api (Gemini.request m ty count lang)
       = Resolved (Gemini.mkResponse (Some text))
       /\ Gemini.JSON_parse api (Gemini.trim api text) = Gemini.ArrayOf qs)
  /\ (forall e, result = Rejected e -> e = Gemini.generationFailed).
Proof.
  intros Hkey. cbv zeta. unfold Gemini.generateQuestions. rewrite Hkey.
  cbn [negb].
  destruct (Gemini.generateContent api _) as [[[text|]]|err];
    cbn [Gemini.response_text].
  - destruct (Gemini.JSON_parse api (Gemini.trim api text)) as [| |qs0] eqn:Hp;
      (split; [intros qs; split|intros e He; congruence]);
      try discriminate.
    + intros (text' & Heq & Hp'). congruence.
    + intros (text' & Heq & Hp'). congruence.
    + intros Heq. injection Heq as <-. now exists text.
    + intros (text' & Heq & Hp'). congruence.
  - split; [intros qs; split|intros e He; congruence]; try discriminate.
    intros (text' & Heq & _). discriminate.
  - split; [intros qs; split|intros e He; congruence]; try discriminate.
    intros (text' & Heq & _). discriminate.
Qed.

Lemma service_resolves_on_an_array_witness :
  let api :=
    Gemini.mkApi (Some "key")
      (fun _ => Resolved (Gemini.mkResponse (Some " [] ")))
      (fun s => s)
      (fun _ => Gemini.ArrayOf []) in
  Gemini.generateQuestions api (Text "The heart pumps blood.") TrueFalse 5
    "en"
  = Resolved [].
Proof.
  destruct (service_resolves_on_an_array
              (Gemini.mkApi (Some "key")
                 (fun _ => Resolved (Gemini.mkResponse (Some " [] ")))
                 (fun s => s)
                 (fun _ => Gemini.ArrayOf []))
              (Text "The heart pumps blood.") TrueFalse 5 "en" eq_refl)
    as [Hres _].
  apply Hres. exists " [] ". split; reflexivity.
Defined.

(** X20.  Without an API key (unset or empty) the service rejects with the
    key message whatever the client would answer; the generate action run
    on such a service ends as any failed generation: the generation-failed
    error on the count selection, with no question recorded. *)
Theorem generate_without_api_key env api r w ty m :
  truthy_string (Gemini.API_KEY api) = false ->
  questionType r = Some ty ->
  studyMaterial r = Some m ->
  truthy_material (Some m) = true ->
  Gemini.generateQuestions api m ty (questionCount r) (language env)
  = Rejected Gemini.keyMissing
  /\ run (handleGenerateQuestions (withService api env) r w) =
     (Ok tt,
      mkWorld
        (with_stage SELECT_COUNT
           (with_error (Some (t env "error_generation_failed"))
              (with_error None (with_stage GENERATING (session w)))))
        (io w ++ [IoGenerateQuestions m ty (questionCount r) (language env)])
        (timers w)).
Proof.
  intros Hkey Hty Hm Htruthy.
  assert (Gemini.generateQuestions api m ty (questionCount r) (language env)
          = Rejected Gemini.keyMissing) as Hrej.
  { unfold Gemini.generateQuestions. now rewrite Hkey. }
  split; [exact Hrej|].
  unfold handleGenerateQuestions. rewrite Hty, Hm, Htruthy.
  cbn [negb withService generateQuestions language t]. rewrite Hrej.
  run_m. reflexivity.
Qed.

Lemma generate_without_api_key_witness :
  let api :=
    Gemini.mkApi None
      (fun _ => Resolved (Gemini.mkResponse (Some "[]")))
      (fun s => s)
      (fun _ => Gemini.ArrayOf Sample.someQuestions) in
  let env := Sample.env (Rejected "unused") in
  let r := Sample.counting in
  Gemini.generateQuestions api (Text "The heart pumps blood.") TrueFalse 5
    "en"
  = Rejected Gemini.keyMissing
  /\ run (handleGenerateQuestions (withService api env) r (worldOf r)) =
     (Ok tt,
      mkWorld
        (with_stage SELECT_COUNT
           (with_error (Some "error_generation_failed")
              (with_error None (with_stage GENERATING r))))
        ([] ++ [IoGenerateQuestions (Text "The heart pumps blood.")
                  TrueFalse 5 "en"])
        []).
Proof.
  apply (generate_without_api_key (Sample.env (Rejected "unused"))
           (Gemini.mkApi None
              (fun _ => Resolved (Gemini.mkResponse (Some "[]")))
              (fun s => s)
              (fun _ => Gemini.ArrayOf Sample.someQuestions))
           Sample.counting (worldOf Sample.counting) TrueFalse
           (Text "The heart pumps blood."));
    reflexivity.
Defined.

(** X21.  The service hands an empty JSON array on as a success; it is the
    generate action that refuses it: run on a service whose client answers
    with an empty array, it ends with the generation-failed error on the
    count selection, as on a failure. *)
Theorem empty_array_passes_the_service_only env api r w ty m text :
  truthy_string (Gemini.API_KEY api) = true ->
  questionType r = Some ty ->
  studyMaterial r = Some m ->
  truthy_material (Some m) = true ->
  Gemini.generateContent api
    (Gemini.request m ty (questionCount r) (language env))
  = Resolved (Gemini.mkResponse (Some text)) ->
  Gemini.JSON_parse api (Gemini.trim api text) = Gemini.ArrayOf [] ->
  Gemini.generateQuestions api m ty (questionCount r) (language env)
  = Resolved []
  /\ run (handleGenerateQuestions (withService api env) r w) =
     (Ok tt,
      mkWorld
        (with_stage SELECT_COUNT
           (with_error (Some (t env "error_generation_failed"))
              (with_error None (with_stage GENERATING (session w)))))
        (io w ++ [IoGenerateQuestions m ty (questionCount r) (language env)])
        (timers w)).
Proof.
  intros Hkey Hty Hm Htruthy Hcall Hparse.
  assert (Gemini.generateQuestions api m ty (questionCount r) (language env)
          = Resolved []) as Hres.
  { unfold Gemini.generateQuestions. rewrite Hkey, Hcall. cbn.
    now rewrite Hparse. }
  split; [exact Hres|].
  unfold handleGenerateQuestions. rewrite Hty, Hm, Htruthy.
  cbn [negb withService generateQuestions language t]. rewrite Hres.
  run_m. reflexivity.
Qed.

Lemma empty_array_passes_the_service_only_witness :
  let api :=
    Gemini.mkApi (Some "key")
      (fun _ => Resolved (Gemini.mkResponse (Some "[]")))
      (fun s => s)
      (fun _ => Gemini.ArrayOf []) in
  let env := Sample.env (Rejected "unused") in
  let r := Sample.counting in
  Gemini.generateQuestions api (Text "The heart pumps blood.") TrueFalse 5
    "en"
  = Resolved []
  /\ run (handleGenerateQuestions (withService api env) r (worldOf r)) =
     (Ok tt,
      mkWorld
        (with_stage SELECT_COUNT
           (with_error (Some "error_generation_failed")
              (with_error None (with_stage GENERATING r))))
        ([] ++ [IoGenerateQuestions (Text "The heart pumps blood.")
                  TrueFalse 5 "en"])
        []).
Proof.
  apply (empty_array_passes_the_service_only
           (Sample.env (Rejected "unused"))
           (Gemini.mkApi (Some "key")
              (fun _ => Resolved (Gemini.mkResponse (Some "[]")))
              (fun s => s)
              (fun _ => Gemini.ArrayOf []))
           Sample.counting (worldOf Sample.counting) TrueFalse
           (Text "The heart pumps blood.") "[]");
    reflexivity.
Defined.
